(** * pantalaimon/ui.py: the D-Bus control surface and its dispatch loop

    A shallow embedding of [pantalaimon/ui.py]: the correlation id
    allocator [IdCounter], the two D-Bus objects [Control] and [Devices],
    and the GLib thread object [GlibT] with its periodic
    [message_callback].

    Python objects that are reachable through several references (the
    [IdCounter] handed to both [Control] and [Devices], the queues handed
    to [GlibT], [Control] and [Devices]) live in a heap indexed by
    locations; an object owned by one other object is a record field of
    its owner.  Methods run in a state-and-exception monad over [World],
    which also holds what the program can only observe or cause: the
    contents of the store, the notification server, the signals put on
    the bus, the calls made to notify2 and the log. *)

From stdpp Require Import gmap strings list fin_maps.

Local Open Scope Z_scope.
Local Open Scope string_scope.
Local Open Scope list_scope.

(** ** Python values *)

Definition loc := positive.

(** The exceptions the code can meet.  [InvalidReference] has no Python
    counterpart: it is what the model answers when a location is not
    allocated, which a Python reference never is. *)
Inductive exn :=
| Empty
| ValueError
| DBusException
| AttributeError
| InvalidReference.

Global Instance exn_eq_dec : EqDecision exn := ltac:(solve_decision).

(** An insertion-ordered [dict] with string keys, for the dictionaries
    whose [values()] end up in a D-Bus array. *)
Definition dict (V : Type) : Type := list (string * V).

Fixpoint dict_get {V : Type} (k : string) (d : dict V) : option V :=
  match d with
  | [] => None
  | (k', v) :: rest => if decide (k = k') then Some v else dict_get k rest
  end.

Definition dict_values {V : Type} (d : dict V) : list V := map snd d.

(** [not x] for [x] the result of [dict.get(key, None)]: [None] and the
    empty dict are falsy. *)
Definition falsy {V : Type} (x : option (dict V)) : bool :=
  match x with
  | None => true
  | Some [] => true
  | Some (_ :: _) => false
  end.

(** ** IdCounter *)

Module IdCounter.

Record t := { _message_id : Z }.

Definition __init__ : t := {| _message_id := 0 |}.

(** The [message_id] property: the value read and the counter after
    the read. *)
Definition message_id (self : t) : Z * t :=
  let ret := _message_id self in
  (ret, {| _message_id := _message_id self + 1 |}).

(** [n] successive reads of the property, in call order. *)
Fixpoint reads (n : nat) (self : t) : list Z * t :=
  match n with
  | O => ([], self)
  | S n' =>
      let '(ret, self) := message_id self in
      let '(rets, self) := reads n' self in
      (ret :: rets, self)
  end.

End IdCounter.

(** ** queue.Queue

    The part of [queue.Queue] that the code uses, for a queue built with
    the default [maxsize=0] (unbounded): [put] never blocks,
    [get_nowait] raises [Empty] on an empty queue, and [task_done]
    raises [ValueError] when called more often than items were put. *)

Module Queue.

Record t (A : Type) := { items : list A; unfinished_tasks : nat }.
Arguments items {A}.
Arguments unfinished_tasks {A}.

Definition put {A : Type} (item : A) (self : t A) : t A :=
  {| items := items self ++ [item];
     unfinished_tasks := S (unfinished_tasks self) |}.

Definition get_nowait {A : Type} (self : t A) : option (A * t A) :=
  match items self with
  | [] => None
  | item :: rest =>
      Some (item, {| items := rest;
                     unfinished_tasks := unfinished_tasks self |})
  end.

Definition task_done {A : Type} (self : t A) : option (t A) :=
  match unfinished_tasks self with
  | O => None
  | S n => Some {| items := items self; unfinished_tasks := n |}
  end.

(** Every queued item is an unfinished task; it holds of a queue on
    which [task_done] is only called after a [get]. *)
Definition accounted {A : Type} (self : t A) : Prop :=
  (length (items self) <= unfinished_tasks self)%nat.

End Queue.

(** ** pantalaimon.thread_messages *)

(** Modelled from the spec: the command classes of
    [pantalaimon.thread_messages], which is not part of the source at
    hand.  Every variant carries its correlation id, the account
    ("pan user") and its kind-specific fields, in the order in which
    [ui.py] passes them to the constructor. *)
Inductive CommandMessage :=
| ExportKeysMessage (message_id : Z) (pan_user file_path passphrase : string)
| ImportKeysMessage (message_id : Z) (pan_user file_path passphrase : string)
| SendAnywaysMessage (message_id : Z) (pan_user room_id : string)
| CancelSendingMessage (message_id : Z) (pan_user room_id : string)
| DeviceVerifyMessage (message_id : Z) (pan_user user_id device_id : string)
| DeviceUnverifyMessage (message_id : Z) (pan_user user_id device_id : string)
| DeviceBlacklistMessage (message_id : Z) (pan_user user_id device_id : string)
| DeviceUnblacklistMessage (message_id : Z) (pan_user user_id device_id : string)
| StartSasMessage (message_id : Z) (pan_user user_id device_id : string)
| CancelSasMessage (message_id : Z) (pan_user user_id device_id : string)
| AcceptSasMessage (message_id : Z) (pan_user user_id device_id : string)
| ConfirmSasMessage (message_id : Z) (pan_user user_id device_id : string).

(** The attribute [message.message_id] of a command. *)
Definition cmd_message_id (message : CommandMessage) : Z :=
  match message with
  | ExportKeysMessage i _ _ _ | ImportKeysMessage i _ _ _
  | SendAnywaysMessage i _ _ | CancelSendingMessage i _ _
  | DeviceVerifyMessage i _ _ _ | DeviceUnverifyMessage i _ _ _
  | DeviceBlacklistMessage i _ _ _ | DeviceUnblacklistMessage i _ _ _
  | StartSasMessage i _ _ _ | CancelSasMessage i _ _ _
  | AcceptSasMessage i _ _ _ | ConfirmSasMessage i _ _ _ => i
  end.

(** Modelled from the spec: the event classes of
    [pantalaimon.thread_messages] that [message_callback] tests with
    [isinstance], with the attributes it reads from them.
    [UnrecognizedMessage] stands for an object that is an instance of
    none of the seven classes; its argument names its class. *)
Inductive EventMessage :=
| UpdateDevicesMessage
| UpdateUsersMessage
| UnverifiedDevicesSignal (pan_user room_id room_display_name : string)
| InviteSasSignal (pan_user user_id device_id transaction_id : string)
| ShowSasSignal (pan_user user_id device_id transaction_id : string)
                (emoji : list (string * string))
| SasDoneSignal (pan_user user_id device_id transaction_id : string)
| DaemonResponse (message_id : Z) (pan_user code message : string)
| UnrecognizedMessage (class_name : string).

(** Attribute access on an event, [None] where Python raises
    [AttributeError]. *)
Definition attr_pan_user (message : EventMessage) : option string :=
  match message with
  | UnverifiedDevicesSignal pan_user _ _ | InviteSasSignal pan_user _ _ _
  | ShowSasSignal pan_user _ _ _ _ | SasDoneSignal pan_user _ _ _
  | DaemonResponse _ pan_user _ _ => Some pan_user
  | _ => None
  end.

Definition attr_room_id (message : EventMessage) : option string :=
  match message with
  | UnverifiedDevicesSignal _ room_id _ => Some room_id
  | _ => None
  end.

Definition attr_room_display_name (message : EventMessage) : option string :=
  match message with
  | UnverifiedDevicesSignal _ _ room_display_name => Some room_display_name
  | _ => None
  end.

Definition attr_user_id (message : EventMessage) : option string :=
  match message with
  | InviteSasSignal _ user_id _ _ | ShowSasSignal _ user_id _ _ _
  | SasDoneSignal _ user_id _ _ => Some user_id
  | _ => None
  end.

Definition attr_device_id (message : EventMessage) : option string :=
  match message with
  | InviteSasSignal _ _ device_id _ | ShowSasSignal _ _ device_id _ _
  | SasDoneSignal _ _ device_id _ => Some device_id
  | _ => None
  end.

Definition attr_emoji (message : EventMessage) : option (list (string * string)) :=
  match message with
  | ShowSasSignal _ _ _ _ emoji => Some emoji
  | _ => None
  end.

(** ** What leaves the process *)

(** The signals declared in the two interface descriptions. *)
Inductive Signal :=
| Response (id : Z) (pan_user : string) (message : gmap string string)
| UnverifiedDevices (pan_user room_id room_display_name : string)
| VerificationInvite (pan_user user_id device_id transaction_id : string)
| VerificationString (pan_user user_id device_id transaction_id : string)
                     (emoji : list (string * string))
| VerificationCancel (pan_user user_id device_id transaction_id reason code : string)
| VerificationDone (pan_user user_id device_id transaction_id : string).

(** The closures that the notification functions hand to
    [add_action].  Each captures [self] only, so a closure is its name;
    [GlibT.invoke] gives its body. *)
Inductive Callback :=
| unverified_send_cb
| unverified_cancel_cb
| sas_invite_accept_cb
| sas_invite_cancel_cb
| sas_show_confirm_cb
| sas_show_cancel_cb.

Record NotificationAction := {
  action_key : string;
  action_label : string;
  action_callback : Callback;
  action_user_data : EventMessage
}.

Record Notification := {
  summary : string;
  body : string;
  category : string;
  actions : list NotificationAction
}.

(** The calls made to notify2 that reached the notification server. *)
Inductive NotifyCall :=
| notify_init (app_name : string)
| notify_get_server_caps
| notify_show (n : Notification).

Inductive LogRecord :=
| log_debug_received (message : EventMessage)
| log_error (text : string).

(** A user record is the pair that [load_users] yields per account, a
    device record the string dictionary sent as [a{ss}]. *)
Abbreviation UserRecord := (string * string)%type (only parsing).
Abbreviation DeviceRecord := (gmap string string) (only parsing).
Abbreviation DeviceStore := (dict (dict (gmap string string))) (only parsing).

(** Modelled from the spec: what the storage collaborator
    ([pantalaimon.store.PanStore], not part of the source at hand)
    answers at a given moment. *)
Record Database := {
  db_load_users : string → list UserRecord;
  db_load_all_users : dict (list UserRecord);
  db_load_all_devices : dict DeviceStore
}.

(** ** The world and the monad *)

(** The heap of shared objects (counters and queues, by location), what
    the collaborators hold (the store, the notification server), and
    what has left the process so far, oldest first (signals, calls to
    notify2, log records). *)
Record World := {
  counters : gmap loc IdCounter.t;
  command_queues : gmap loc (Queue.t CommandMessage);
  event_queues : gmap loc (Queue.t EventMessage);
  database : Database;
  (** [None]: no notification server on the session bus; otherwise the
      capabilities the server reports. *)
  notify_server : option (list string);
  bus_signals : list Signal;
  notify_calls : list NotifyCall;
  log : list LogRecord
}.

Definition set_counters (f : gmap loc IdCounter.t → gmap loc IdCounter.t) (w : World) : World :=
  {| counters := f (counters w); command_queues := command_queues w;
     event_queues := event_queues w; database := database w;
     notify_server := notify_server w; bus_signals := bus_signals w;
     notify_calls := notify_calls w; log := log w |}.

Definition set_command_queues
    (f : gmap loc (Queue.t CommandMessage) → gmap loc (Queue.t CommandMessage))
    (w : World) : World :=
  {| counters := counters w; command_queues := f (command_queues w);
     event_queues := event_queues w; database := database w;
     notify_server := notify_server w; bus_signals := bus_signals w;
     notify_calls := notify_calls w; log := log w |}.

Definition set_event_queues
    (f : gmap loc (Queue.t EventMessage) → gmap loc (Queue.t EventMessage))
    (w : World) : World :=
  {| counters := counters w; command_queues := command_queues w;
     event_queues := f (event_queues w); database := database w;
     notify_server := notify_server w; bus_signals := bus_signals w;
     notify_calls := notify_calls w; log := log w |}.

Definition set_database (db : Database) (w : World) : World :=
  {| counters := counters w; command_queues := command_queues w;
     event_queues := event_queues w; database := db;
     notify_server := notify_server w; bus_signals := bus_signals w;
     notify_calls := notify_calls w; log := log w |}.

Definition add_signal (s : Signal) (w : World) : World :=
  {| counters := counters w; command_queues := command_queues w;
     event_queues := event_queues w; database := database w;
     notify_server := notify_server w; bus_signals := bus_signals w ++ [s];
     notify_calls := notify_calls w; log := log w |}.

Definition add_notify_call (c : NotifyCall) (w : World) : World :=
  {| counters := counters w; command_queues := command_queues w;
     event_queues := event_queues w; database := database w;
     notify_server := notify_server w; bus_signals := bus_signals w;
     notify_calls := notify_calls w ++ [c]; log := log w |}.

Definition add_log (r : LogRecord) (w : World) : World :=
  {| counters := counters w; command_queues := command_queues w;
     event_queues := event_queues w; database := database w;
     notify_server := notify_server w; bus_signals := bus_signals w;
     notify_calls := notify_calls w; log := log w ++ [r] |}.

(** A method returns a value or raises; either way it leaves a world. *)
Inductive outcome (A : Type) : Type :=
| Ok (a : A) (w : World)
| Raise (e : exn) (w : World).
Arguments Ok {A}.
Arguments Raise {A}.

Definition M (A : Type) : Type := World → outcome A.

Global Instance M_ret : MRet M := λ A a w, Ok a w.

Global Instance M_bind : MBind M := λ A B f m w,
  match m w with
  | Ok a w' => f a w'
  | Raise e w' => Raise e w'
  end.

Global Instance M_fmap : FMap M := λ A B f m w,
  match m w with
  | Ok a w' => Ok (f a) w'
  | Raise e w' => Raise e w'
  end.

Definition raise {A : Type} (e : exn) : M A := λ w, Raise e w.

(** [try: body  except e: handler]. *)
Definition try_except {A : Type} (body : M A) (e : exn) (handler : M A) : M A :=
  λ w, match body w with
       | Ok a w' => Ok a w'
       | Raise e' w' => if decide (e' = e) then handler w' else Raise e' w'
       end.

(** Attribute access that raises [AttributeError]. *)
Definition getattr {A : Type} (x : option A) : M A :=
  match x with
  | Some a => mret a
  | None => raise AttributeError
  end.

(** ** Heap objects, collaborators and outputs *)

(** [IdCounter()]: a new counter object. *)
Definition new_IdCounter : M loc := λ w,
  let l := fresh (dom (counters w)) in
  Ok l (set_counters (insert l IdCounter.__init__) w).

(** Reading the [message_id] property of the counter at [l]. *)
Definition read_message_id (l : loc) : M Z := λ w,
  match counters w !! l with
  | Some c =>
      let '(ret, c') := IdCounter.message_id c in
      Ok ret (set_counters (insert l c') w)
  | None => Raise InvalidReference w
  end.

(** [queue.put(message)] on the command queue at [l]. *)
Definition command_queue_put (l : loc) (message : CommandMessage) : M unit := λ w,
  match command_queues w !! l with
  | Some q => Ok tt (set_command_queues (insert l (Queue.put message q)) w)
  | None => Raise InvalidReference w
  end.

(** [queue.get_nowait()] on the event queue at [l]. *)
Definition event_queue_get_nowait (l : loc) : M EventMessage := λ w,
  match event_queues w !! l with
  | Some q =>
      match Queue.get_nowait q with
      | Some (message, q') => Ok message (set_event_queues (insert l q') w)
      | None => Raise Empty w
      end
  | None => Raise InvalidReference w
  end.

(** [queue.task_done()] on the event queue at [l]. *)
Definition event_queue_task_done (l : loc) : M unit := λ w,
  match event_queues w !! l with
  | Some q =>
      match Queue.task_done q with
      | Some q' => Ok tt (set_event_queues (insert l q') w)
      | None => Raise ValueError w
      end
  | None => Raise InvalidReference w
  end.

(** Raising a pydbus signal. *)
Definition emit (s : Signal) : M unit := λ w, Ok tt (add_signal s w).

Module logger.

Definition debug (r : LogRecord) : M unit := λ w, Ok tt (add_log r w).

Definition error (text : string) : M unit := λ w, Ok tt (add_log (log_error text) w).

End logger.

(** Modelled from the spec: the handle [PanStore(data_dir)] of
    [pantalaimon.store], which is not part of the source at hand; its
    three loaders read the current [database]. *)
Module PanStore.

Record t := { data_dir : string }.

Definition load_users (self : t) (server_name : string) : M (list UserRecord) :=
  λ w, Ok (db_load_users (database w) server_name) w.

Definition load_all_users (self : t) : M (dict (list UserRecord)) :=
  λ w, Ok (db_load_all_users (database w)) w.

Definition load_all_devices (self : t) : M (dict DeviceStore) :=
  λ w, Ok (db_load_all_devices (database w)) w.

End PanStore.

(** The part of notify2 that the code uses.  Every call that needs the
    notification server raises [DBusException] when there is none. *)
Module notify2.

Definition init (app_name : string) : M unit := λ w,
  match notify_server w with
  | Some _ => Ok tt (add_notify_call (notify_init app_name) w)
  | None => Raise DBusException w
  end.

Definition get_server_caps : M (list string) := λ w,
  match notify_server w with
  | Some caps => Ok caps (add_notify_call notify_get_server_caps w)
  | None => Raise DBusException w
  end.

Definition new_Notification (summary message : string) : Notification :=
  {| summary := summary; body := message; category := ""; actions := [] |}.

Definition set_category (category : string) (n : Notification) : Notification :=
  {| summary := summary n; body := body n; category := category;
     actions := actions n |}.

Definition add_action (action label : string) (callback : Callback)
    (user_data : EventMessage) (n : Notification) : Notification :=
  {| summary := summary n; body := body n; category := category n;
     actions := actions n ++ [{| action_key := action; action_label := label;
                                 action_callback := callback;
                                 action_user_data := user_data |}] |}.

Definition show (n : Notification) : M unit := λ w,
  match notify_server w with
  | Some _ => Ok tt (add_notify_call (notify_show n) w)
  | None => Raise DBusException w
  end.

End notify2.

(** Modelled from the spec: a server entry of the configuration
    ([pantalaimon.config], not part of the source at hand); [ui.py]
    reads its [name] only. *)
Module ServerConfig.

Record t := { name : string }.

End ServerConfig.

(** Modelled from the spec: the configuration object, of which [ui.py]
    reads [notifications] only. *)
Module PanConfig.

Record t := { notifications : bool }.

End PanConfig.

(** ** Control *)

Module Control.

Record t := {
  server_list : list ServerConfig.t;
  store : PanStore.t;
  queue : loc;
  id_counter : loc;
  users : gmap string (list UserRecord)
}.

Definition set_users (users : gmap string (list UserRecord)) (self : t) : t :=
  {| server_list := server_list self; store := store self; queue := queue self;
     id_counter := id_counter self; users := users |}.

(** The loop of [update_users] over the servers still to visit. *)
Fixpoint update_users_from (servers : list ServerConfig.t) (self : t) : M t :=
  match servers with
  | [] => mret self
  | server :: rest =>
      loaded ← PanStore.load_users (store self) (ServerConfig.name server);
      update_users_from rest
        (set_users (<[ServerConfig.name server := loaded]> (users self)) self)
  end.

Definition update_users (self : t) : M t :=
  update_users_from (server_list self) self.

Definition __init__ (queue : loc) (store : PanStore.t)
    (server_list : list ServerConfig.t) (id_counter : loc) : M t :=
  update_users {| server_list := server_list; store := store; queue := queue;
                  id_counter := id_counter; users := ∅ |}.

Definition message_id (self : t) : M Z := read_message_id (id_counter self).

Definition ListServers (self : t) : M (gmap string (list UserRecord)) :=
  mret (users self).

Definition ExportKeys (self : t) (pan_user filepath passphrase : string) : M Z :=
  id ← message_id self;
  let message := ExportKeysMessage id pan_user filepath passphrase in
  command_queue_put (queue self) message;;
  mret (cmd_message_id message).

Definition ImportKeys (self : t) (pan_user filepath passphrase : string) : M Z :=
  id ← message_id self;
  let message := ImportKeysMessage id pan_user filepath passphrase in
  command_queue_put (queue self) message;;
  mret (cmd_message_id message).

Definition SendAnyways (self : t) (pan_user room_id : string) : M Z :=
  id ← message_id self;
  let message := SendAnywaysMessage id pan_user room_id in
  command_queue_put (queue self) message;;
  mret (cmd_message_id message).

Definition CancelSending (self : t) (pan_user room_id : string) : M Z :=
  id ← message_id self;
  let message := CancelSendingMessage id pan_user room_id in
  command_queue_put (queue self) message;;
  mret (cmd_message_id message).

End Control.

(** ** Devices *)

Module Devices.

Record t := {
  store : PanStore.t;
  device_list : option (dict DeviceStore);
  queue : loc;
  id_counter : loc
}.

Definition set_device_list (device_list : option (dict DeviceStore)) (self : t) : t :=
  {| store := store self; device_list := device_list; queue := queue self;
     id_counter := id_counter self |}.

Definition update_devices (self : t) : M t :=
  loaded ← PanStore.load_all_devices (store self);
  mret (set_device_list (Some loaded) self).

Definition __init__ (queue : loc) (store : PanStore.t) (id_counter : loc) : M t :=
  update_devices {| store := store; device_list := None; queue := queue;
                    id_counter := id_counter |}.

Definition message_id (self : t) : M Z := read_message_id (id_counter self).

Definition List (self : t) (pan_user : string) : M (list DeviceRecord) :=
  cache ← getattr (device_list self);
  let device_store := dict_get pan_user cache in
  if falsy device_store then mret []
  else
    mret (concat (map dict_values (dict_values (default [] device_store)))).

Definition ListUserDevices (self : t) (pan_user user_id : string) : M (list DeviceRecord) :=
  cache ← getattr (device_list self);
  let device_store := dict_get pan_user cache in
  if falsy device_store then mret []
  else
    let device_list := dict_get user_id (default [] device_store) in
    if falsy device_list then mret []
    else mret (dict_values (default [] device_list)).

Definition Verify (self : t) (pan_user user_id device_id : string) : M Z :=
  id ← message_id self;
  let message := DeviceVerifyMessage id pan_user user_id device_id in
  command_queue_put (queue self) message;;
  mret (cmd_message_id message).

Definition Unverify (self : t) (pan_user user_id device_id : string) : M Z :=
  id ← message_id self;
  let message := DeviceUnverifyMessage id pan_user user_id device_id in
  command_queue_put (queue self) message;;
  mret (cmd_message_id message).

Definition Blacklist (self : t) (pan_user user_id device_id : string) : M Z :=
  id ← message_id self;
  let message := DeviceBlacklistMessage id pan_user user_id device_id in
  command_queue_put (queue self) message;;
  mret (cmd_message_id message).

Definition Unblacklist (self : t) (pan_user user_id device_id : string) : M Z :=
  id ← message_id self;
  let message := DeviceUnblacklistMessage id pan_user user_id device_id in
  command_queue_put (queue self) message;;
  mret (cmd_message_id message).

Definition StartKeyVerification (self : t) (pan_user user_id device_id : string) : M Z :=
  id ← message_id self;
  let message := StartSasMessage id pan_user user_id device_id in
  command_queue_put (queue self) message;;
  mret (cmd_message_id message).

Definition CancelKeyVerification (self : t) (pan_user user_id device_id : string) : M Z :=
  id ← message_id self;
  let message := CancelSasMessage id pan_user user_id device_id in
  command_queue_put (queue self) message;;
  mret (cmd_message_id message).

Definition ConfirmKeyVerification (self : t) (pan_user user_id device_id : string) : M Z :=
  id ← message_id self;
  let message := ConfirmSasMessage id pan_user user_id device_id in
  command_queue_put (queue self) message;;
  mret (cmd_message_id message).

Definition AcceptKeyVerification (self : t) (pan_user user_id device_id : string) : M Z :=
  id ← message_id self;
  let message := AcceptSasMessage id pan_user user_id device_id in
  command_queue_put (queue self) message;;
  mret (cmd_message_id message).

End Devices.

(** ** GlibT *)

Inductive MainLoop := GLib_MainLoop.

Module GlibT.

(** The attrs fields of the class.  [devices] is declared but never
    assigned, and [bus] only publishes the two interface objects; both
    are left out. *)
Record t := {
  receive_queue : loc;
  send_queue : loc;
  data_dir : string;
  server_list : list ServerConfig.t;
  config : PanConfig.t;
  loop : option MainLoop;
  store : PanStore.t;
  users : dict (list UserRecord);
  control_if : Control.t;
  device_if : Devices.t;
  notifications : bool
}.

Definition set_loop (loop : option MainLoop) (self : t) : t :=
  {| receive_queue := receive_queue self; send_queue := send_queue self;
     data_dir := data_dir self; server_list := server_list self;
     config := config self; loop := loop; store := store self;
     users := users self; control_if := control_if self;
     device_if := device_if self; notifications := notifications self |}.

Definition set_control_if (control_if : Control.t) (self : t) : t :=
  {| receive_queue := receive_queue self; send_queue := send_queue self;
     data_dir := data_dir self; server_list := server_list self;
     config := config self; loop := loop self; store := store self;
     users := users self; control_if := control_if;
     device_if := device_if self; notifications := notifications self |}.

Definition set_device_if (device_if : Devices.t) (self : t) : t :=
  {| receive_queue := receive_queue self; send_queue := send_queue self;
     data_dir := data_dir self; server_list := server_list self;
     config := config self; loop := loop self; store := store self;
     users := users self; control_if := control_if self;
     device_if := device_if; notifications := notifications self |}.

Definition set_notifications (notifications : bool) (self : t) : t :=
  {| receive_queue := receive_queue self; send_queue := send_queue self;
     data_dir := data_dir self; server_list := server_list self;
     config := config self; loop := loop self; store := store self;
     users := users self; control_if := control_if self;
     device_if := device_if self; notifications := notifications |}.

(** The object after the generated [__init__] has stored the five
    arguments and [__attrs_post_init__] has run. *)
Definition __attrs_post_init__ (receive_queue send_queue : loc) (data_dir : string)
    (server_list : list ServerConfig.t) (config : PanConfig.t) : M t :=
  let store := {| PanStore.data_dir := data_dir |} in
  users ← PanStore.load_all_users store;
  id_counter ← new_IdCounter;
  control_if ← Control.__init__ send_queue store server_list id_counter;
  device_if ← Devices.__init__ send_queue store id_counter;
  mret {| receive_queue := receive_queue; send_queue := send_queue;
          data_dir := data_dir; server_list := server_list; config := config;
          loop := None; store := store; users := users;
          control_if := control_if; device_if := device_if;
          notifications := false |}.

(** The body of a closure given to [add_action], called by notify2 as
    [callback(notification, action_key, user_data)] when the user picks
    the action. *)
Definition invoke (self : t) (callback : Callback) (user_data : EventMessage) : M unit :=
  let message := user_data in
  match callback with
  | unverified_send_cb =>
      pan_user ← getattr (attr_pan_user message);
      room_id ← getattr (attr_room_id message);
      Control.SendAnyways (control_if self) pan_user room_id;;
      mret tt
  | unverified_cancel_cb =>
      pan_user ← getattr (attr_pan_user message);
      room_id ← getattr (attr_room_id message);
      Control.CancelSending (control_if self) pan_user room_id;;
      mret tt
  | sas_invite_accept_cb =>
      pan_user ← getattr (attr_pan_user message);
      user_id ← getattr (attr_user_id message);
      device_id ← getattr (attr_device_id message);
      Devices.AcceptKeyVerification (device_if self) pan_user user_id device_id;;
      mret tt
  | sas_invite_cancel_cb | sas_show_cancel_cb =>
      pan_user ← getattr (attr_pan_user message);
      user_id ← getattr (attr_user_id message);
      device_id ← getattr (attr_device_id message);
      Devices.CancelKeyVerification (device_if self) pan_user user_id device_id;;
      mret tt
  | sas_show_confirm_cb =>
      pan_user ← getattr (attr_pan_user message);
      user_id ← getattr (attr_user_id message);
      device_id ← getattr (attr_device_id message);
      Devices.ConfirmKeyVerification (device_if self) pan_user user_id device_id;;
      mret tt
  end.

Definition unverified_notification (self : t) (message : EventMessage) : M unit :=
  room_display_name ← getattr (attr_room_display_name message);
  let notificaton :=
    notify2.new_Notification "Unverified devices."
      ("There are unverified devices in the room " +:+ room_display_name +:+ ".") in
  let notificaton := notify2.set_category "im" notificaton in
  caps ← notify2.get_server_caps;
  let notificaton :=
    if bool_decide ("actions" ∈ caps) then
      notify2.add_action "cancel" "Cancel sending" unverified_cancel_cb message
        (notify2.add_action "send" "Send anyways" unverified_send_cb message
           notificaton)
    else notificaton in
  notify2.show notificaton.

Definition sas_invite_notification (self : t) (message : EventMessage) : M unit :=
  user_id ← getattr (attr_user_id message);
  device_id ← getattr (attr_device_id message);
  let notificaton :=
    notify2.new_Notification "Key verification invite"
      (user_id +:+ " via " +:+ device_id +:+ " has started "
       +:+ "a key verification process.") in
  let notificaton := notify2.set_category "im" notificaton in
  caps ← notify2.get_server_caps;
  let notificaton :=
    if bool_decide ("actions" ∈ caps) then
      notify2.add_action "cancel" "Cancel" sas_invite_cancel_cb message
        (notify2.add_action "accept" "Accept" sas_invite_accept_cb message
           notificaton)
    else notificaton in
  notify2.show notificaton.

Definition newline : string := String (Ascii.ascii_of_nat 10) "".

Definition sas_show_notification (self : t) (message : EventMessage) : M unit :=
  emoji ← getattr (attr_emoji message);
  let emojis := map fst emoji in
  let emoji_str := String.concat "   " emojis in
  user_id ← getattr (attr_user_id message);
  device_id ← getattr (attr_device_id message);
  let notificaton :=
    notify2.new_Notification "Short authentication string"
      ("Short authentication string for the key verification of"
       +:+ " " +:+ user_id +:+ " via " +:+ device_id +:+ ":" +:+ newline
       +:+ emoji_str) in
  let notificaton := notify2.set_category "im" notificaton in
  caps ← notify2.get_server_caps;
  let notificaton :=
    if bool_decide ("actions" ∈ caps) then
      notify2.add_action "cancel" "Cancel" sas_show_cancel_cb message
        (notify2.add_action "confirm" "Confirm" sas_show_confirm_cb message
           notificaton)
    else notificaton in
  notify2.show notificaton.

Definition sas_done_notification (self : t) (message : EventMessage) : M unit :=
  device_id ← getattr (attr_device_id message);
  user_id ← getattr (attr_user_id message);
  let notificaton :=
    notify2.new_Notification "Device successfully verified."
      ("Device " +:+ device_id +:+ " of user " +:+ user_id +:+ " "
       +:+ "successfully verified.") in
  let notificaton := notify2.set_category "im" notificaton in
  notify2.show notificaton.

(** One firing of the GLib timeout: the value returned (whether GLib
    keeps the timeout) and the object afterwards. *)
Definition message_callback (self : t) : M (bool * t) :=
  got ← try_except
          (message ← event_queue_get_nowait (receive_queue self);
           mret (Some message))
          Empty (mret None);
  match got with
  | None => mret (true, self)
  | Some message =>
      logger.debug (log_debug_received message);;
      self ←
        match message with
        | UpdateDevicesMessage =>
            device_if ← Devices.update_devices (device_if self);
            mret (set_device_if device_if self)
        | UpdateUsersMessage =>
            control_if ← Control.update_users (control_if self);
            mret (set_control_if control_if self)
        | UnverifiedDevicesSignal pan_user room_id room_display_name =>
            emit (UnverifiedDevices pan_user room_id room_display_name);;
            (if notifications self then unverified_notification self message
             else mret tt);;
            mret self
        | InviteSasSignal pan_user user_id device_id transaction_id =>
            emit (VerificationInvite pan_user user_id device_id transaction_id);;
            (if notifications self then sas_invite_notification self message
             else mret tt);;
            mret self
        | ShowSasSignal pan_user user_id device_id transaction_id emoji =>
            emit (VerificationString pan_user user_id device_id transaction_id emoji);;
            (if notifications self then sas_show_notification self message
             else mret tt);;
            mret self
        | SasDoneSignal pan_user user_id device_id transaction_id =>
            emit (VerificationDone pan_user user_id device_id transaction_id);;
            (if notifications self then sas_done_notification self message
             else mret tt);;
            mret self
        | DaemonResponse message_id pan_user code message =>
            emit (Response message_id pan_user
                    {[ "code" := code; "message" := message ]});;
            mret self
        | UnrecognizedMessage _ => mret self
        end;
      event_queue_task_done (receive_queue self);;
      mret (true, self)
  end.

(** [run] up to the point where it hands control to GLib: the main loop
    object is made, notifications are initialised and the timeout is
    registered. *)
Definition run (self : t) : M t :=
  let self := set_loop (Some GLib_MainLoop) self in
  if PanConfig.notifications (config self) then
    try_except
      (notify2.init "pantalaimon";;
       mret (set_notifications true self))
      DBusException
      (logger.error ("Notifications are enabled but no notification "
                     +:+ "server could be found, disabling notifications.");;
       mret (set_notifications false self))
  else mret self.

(** What [loop.run()] then does with the registered timeout: it fires
    [message_callback] every 100 ms for as long as it returns [True];
    [n] bounds the number of firings looked at. *)
Fixpoint timeout_loop (n : nat) (self : t) : M t :=
  match n with
  | O => mret self
  | S n' =>
      '(continue, self) ← message_callback self;
      if continue : bool then timeout_loop n' self else mret self
  end.

Definition stop (self : t) : t :=
  match loop self with
  | Some _ => set_loop None self
  | None => self
  end.

End GlibT.

(** ** The published interface

    [bus.publish("org.pantalaimon1", control_if, device_if)] routes the
    methods of the two interface descriptions to the two objects. *)

Module DBus.

Inductive call :=
| ListServers
| ExportKeys (pan_user file_path passphrase : string)
| ImportKeys (pan_user file_path passphrase : string)
| SendAnyways (pan_user room_id : string)
| CancelSending (pan_user room_id : string)
| List (pan_user : string)
| ListUserDevices (pan_user user_id : string)
| Verify (pan_user user_id device_id : string)
| Unverify (pan_user user_id device_id : string)
| Blacklist (pan_user user_id device_id : string)
| Unblacklist (pan_user user_id device_id : string)
| StartKeyVerification (pan_user user_id device_id : string)
| CancelKeyVerification (pan_user user_id device_id : string)
| AcceptKeyVerification (pan_user user_id device_id : string)
| ConfirmKeyVerification (pan_user user_id device_id : string).

Inductive reply :=
| servers (value : gmap string (list UserRecord))
| devices (value : list DeviceRecord)
| id (value : Z).

Definition is_query (c : call) : bool :=
  match c with
  | ListServers | List _ | ListUserDevices _ _ => true
  | _ => false
  end.

Definition handle (self : GlibT.t) (c : call) : M reply :=
  let control_if := GlibT.control_if self in
  let device_if := GlibT.device_if self in
  match c with
  | ListServers => servers <$> Control.ListServers control_if
  | ExportKeys pan_user file_path passphrase =>
      id <$> Control.ExportKeys control_if pan_user file_path passphrase
  | ImportKeys pan_user file_path passphrase =>
      id <$> Control.ImportKeys control_if pan_user file_path passphrase
  | SendAnyways pan_user room_id =>
      id <$> Control.SendAnyways control_if pan_user room_id
  | CancelSending pan_user room_id =>
      id <$> Control.CancelSending control_if pan_user room_id
  | List pan_user => devices <$> Devices.List device_if pan_user
  | ListUserDevices pan_user user_id =>
      devices <$> Devices.ListUserDevices device_if pan_user user_id
  | Verify pan_user user_id device_id =>
      id <$> Devices.Verify device_if pan_user user_id device_id
  | Unverify pan_user user_id device_id =>
      id <$> Devices.Unverify device_if pan_user user_id device_id
  | Blacklist pan_user user_id device_id =>
      id <$> Devices.Blacklist device_if pan_user user_id device_id
  | Unblacklist pan_user user_id device_id =>
      id <$> Devices.Unblacklist device_if pan_user user_id device_id
  | StartKeyVerification pan_user user_id device_id =>
      id <$> Devices.StartKeyVerification device_if pan_user user_id device_id
  | CancelKeyVerification pan_user user_id device_id =>
      id <$> Devices.CancelKeyVerification device_if pan_user user_id device_id
  | AcceptKeyVerification pan_user user_id device_id =>
      id <$> Devices.AcceptKeyVerification device_if pan_user user_id device_id
  | ConfirmKeyVerification pan_user user_id device_id =>
      id <$> Devices.ConfirmKeyVerification device_if pan_user user_id device_id
  end.

(** The constructor call that each command method makes, as a function
    of the id it is given; queries make none. *)
Definition command_of (c : call) : option (Z → CommandMessage) :=
  match c with
  | ListServers | List _ | ListUserDevices _ _ => None
  | ExportKeys pan_user file_path passphrase =>
      Some (λ i, ExportKeysMessage i pan_user file_path passphrase)
  | ImportKeys pan_user file_path passphrase =>
      Some (λ i, ImportKeysMessage i pan_user file_path passphrase)
  | SendAnyways pan_user room_id =>
      Some (λ i, SendAnywaysMessage i pan_user room_id)
  | CancelSending pan_user room_id =>
      Some (λ i, CancelSendingMessage i pan_user room_id)
  | Verify pan_user user_id device_id =>
      Some (λ i, DeviceVerifyMessage i pan_user user_id device_id)
  | Unverify pan_user user_id device_id =>
      Some (λ i, DeviceUnverifyMessage i pan_user user_id device_id)
  | Blacklist pan_user user_id device_id =>
      Some (λ i, DeviceBlacklistMessage i pan_user user_id device_id)
  | Unblacklist pan_user user_id device_id =>
      Some (λ i, DeviceUnblacklistMessage i pan_user user_id device_id)
  | StartKeyVerification pan_user user_id device_id =>
      Some (λ i, StartSasMessage i pan_user user_id device_id)
  | CancelKeyVerification pan_user user_id device_id =>
      Some (λ i, CancelSasMessage i pan_user user_id device_id)
  | AcceptKeyVerification pan_user user_id device_id =>
      Some (λ i, AcceptSasMessage i pan_user user_id device_id)
  | ConfirmKeyVerification pan_user user_id device_id =>
      Some (λ i, ConfirmSasMessage i pan_user user_id device_id)
  end.

(** The counter and the queue that the method behind a call uses. *)
Definition on_control (c : call) : bool :=
  match c with
  | ListServers | ExportKeys _ _ _ | ImportKeys _ _ _ | SendAnyways _ _
  | CancelSending _ _ => true
  | _ => false
  end.

Definition counter_of (self : GlibT.t) (c : call) : loc :=
  if on_control c then Control.id_counter (GlibT.control_if self)
  else Devices.id_counter (GlibT.device_if self).

Definition queue_of (self : GlibT.t) (c : call) : loc :=
  if on_control c then Control.queue (GlibT.control_if self)
  else Devices.queue (GlibT.device_if self).

End DBus.

(** ** Executions

    What can happen to a running [GlibT]: a method call arrives over
    D-Bus, GLib fires the timeout, the user picks an action of a
    notification that was shown, the worker puts an event on the inbound
    queue or takes a command from the outbound one, and the worker
    writes to the store. *)

(** The commands waiting in the outbound queue. *)
Definition outbound (self : GlibT.t) (w : World) : list CommandMessage :=
  default [] (Queue.items <$> command_queues w !! GlibT.send_queue self).

(** The events waiting in the inbound queue. *)
Definition inbound (self : GlibT.t) (w : World) : list EventMessage :=
  default [] (Queue.items <$> event_queues w !! GlibT.receive_queue self).

(** The commands put on the outbound queue between [w] and [w']. *)
Definition newly_put (self : GlibT.t) (w w' : World) : list CommandMessage :=
  drop (length (outbound self w)) (outbound self w').

(** The world in which the process starts: the two queues exist, and
    nothing has been signalled, shown or logged yet. *)
Definition startup_world (w : World) (receive_queue send_queue : loc) : Prop :=
  (∃ q, event_queues w !! receive_queue = Some q ∧ Queue.accounted q) ∧
  is_Some (command_queues w !! send_queue) ∧
  bus_signals w = [] ∧ notify_calls w = [] ∧ log w = [].

(** [reach sent w self]: the process can be in world [w] with the
    object [self], having put the commands [sent] on the outbound
    queue since it started (oldest first). *)
Inductive reach : list CommandMessage → World → GlibT.t → Prop :=
| reach_start w0 receive_queue send_queue data_dir server_list config
    self1 w1 self2 w2 :
    startup_world w0 receive_queue send_queue →
    GlibT.__attrs_post_init__ receive_queue send_queue data_dir server_list
      config w0 = Ok self1 w1 →
    GlibT.run self1 w1 = Ok self2 w2 →
    reach [] w2 self2
| reach_call sent w self c r w' :
    reach sent w self →
    DBus.handle self c w = Ok r w' →
    reach (sent ++ newly_put self w w') w' self
| reach_timeout sent w self continue self' w' :
    reach sent w self →
    GlibT.message_callback self w = Ok (continue, self') w' →
    reach (sent ++ newly_put self w w') w' self'
| reach_action sent w self n a w' :
    reach sent w self →
    notify_show n ∈ notify_calls w →
    a ∈ actions n →
    GlibT.invoke self (action_callback a) (action_user_data a) w = Ok tt w' →
    reach (sent ++ newly_put self w w') w' self
| reach_worker_put sent w self message q :
    reach sent w self →
    event_queues w !! GlibT.receive_queue self = Some q →
    reach sent
      (set_event_queues (insert (GlibT.receive_queue self) (Queue.put message q)) w)
      self
| reach_worker_get sent w self q message q' :
    reach sent w self →
    command_queues w !! GlibT.send_queue self = Some q →
    Queue.get_nowait q = Some (message, q') →
    reach sent (set_command_queues (insert (GlibT.send_queue self) q') w) self
| reach_store sent w self db :
    reach sent w self →
    reach sent (set_database db w) self.

(** ** What the statements compare the code with *)

(** Following the spec (4.3, steps 4 to 8): the outward signal that an
    event of each kind is answered with; the other kinds raise none. *)
Definition signal_of (message : EventMessage) : list Signal :=
  match message with
  | UnverifiedDevicesSignal pan_user room_id room_display_name =>
      [UnverifiedDevices pan_user room_id room_display_name]
  | InviteSasSignal pan_user user_id device_id transaction_id =>
      [VerificationInvite pan_user user_id device_id transaction_id]
  | ShowSasSignal pan_user user_id device_id transaction_id emoji =>
      [VerificationString pan_user user_id device_id transaction_id emoji]
  | SasDoneSignal pan_user user_id device_id transaction_id =>
      [VerificationDone pan_user user_id device_id transaction_id]
  | DaemonResponse message_id pan_user code message =>
      [Response message_id pan_user {[ "code" := code; "message" := message ]}]
  | UpdateDevicesMessage | UpdateUsersMessage | UnrecognizedMessage _ => []
  end.

(** Following the spec (3, State Cache): the [users] mapping built
    afresh from what the store holds, one entry per configured server. *)
Definition users_snapshot (db : Database) (servers : list ServerConfig.t)
    : gmap string (list UserRecord) :=
  list_to_map
    (map (λ server, (ServerConfig.name server,
                     db_load_users db (ServerConfig.name server))) servers).

(** The number of times the capabilities of the notification server
    have been asked for. *)
Definition caps_queries (w : World) : nat :=
  length (List.filter
            (λ c, match c with notify_get_server_caps => true | _ => false end)
            (notify_calls w)).

(** The records logged at error level. *)
Definition error_records (w : World) : list LogRecord :=
  List.filter (λ r, match r with log_error _ => true | _ => false end) (log w).

(** The text that [run] logs when [notify2.init] fails. *)
Definition no_server_text : string :=
  "Notifications are enabled but no notification "
  +:+ "server could be found, disabling notifications.".

(** The capability query happens once, at start-up: the reading of the
    spec's sentence on the notification server, for a state [w] of an
    execution. *)
Definition queried_once_at_startup (started w : World) : Prop :=
  caps_queries started = 1%nat ∧ caps_queries w = caps_queries started.

(** ** Conditions on a state *)

(** The references held by the two interface objects point to
    objects. *)
Definition surfaces_allocated (w : World) (self : GlibT.t) : Prop :=
  is_Some (counters w !! Control.id_counter (GlibT.control_if self)) ∧
  is_Some (counters w !! Devices.id_counter (GlibT.device_if self)) ∧
  is_Some (command_queues w !! Control.queue (GlibT.control_if self)) ∧
  is_Some (command_queues w !! Devices.queue (GlibT.device_if self)).

(** The inbound queue exists and its task count covers its items. *)
Definition inbound_ok (w : World) (self : GlibT.t) : Prop :=
  ∃ q, event_queues w !! GlibT.receive_queue self = Some q ∧ Queue.accounted q.

(** Notifications are only switched on when there is a server. *)
Definition notifications_ok (w : World) (self : GlibT.t) : Prop :=
  GlibT.notifications self = true → is_Some (notify_server w).

(** The object graph that [__attrs_post_init__] builds: one counter and
    one outbound queue, shared by both interface objects. *)
Definition shared (self : GlibT.t) : Prop :=
  Control.id_counter (GlibT.control_if self)
    = Devices.id_counter (GlibT.device_if self) ∧
  Control.queue (GlibT.control_if self) = GlibT.send_queue self ∧
  Devices.queue (GlibT.device_if self) = GlibT.send_queue self ∧
  Control.server_list (GlibT.control_if self) = GlibT.server_list self.

(** The ids [first], [first + 1], ... of [n] successive allocations. *)
Definition ids_from (first : Z) (n : nat) : list Z :=
  map (λ k, first + Z.of_nat k) (seq 0 n).

(** The six actions that the notification functions build. *)
Definition built_action (a : NotificationAction) : Prop :=
  match action_callback a, action_user_data a with
  | unverified_send_cb, UnverifiedDevicesSignal _ _ _ =>
      action_key a = "send"
  | unverified_cancel_cb, UnverifiedDevicesSignal _ _ _ =>
      action_key a = "cancel"
  | sas_invite_accept_cb, InviteSasSignal _ _ _ _ =>
      action_key a = "accept"
  | sas_invite_cancel_cb, InviteSasSignal _ _ _ _ =>
      action_key a = "cancel"
  | sas_show_confirm_cb, ShowSasSignal _ _ _ _ _ =>
      action_key a = "confirm"
  | sas_show_cancel_cb, ShowSasSignal _ _ _ _ _ =>
      action_key a = "cancel"
  | _, _ => False
  end.

(** What holds of every reachable state. *)
Record invariant (sent : list CommandMessage) (w : World) (self : GlibT.t) : Prop := {
  inv_shared : shared self;
  inv_counter :
    counters w !! Control.id_counter (GlibT.control_if self)
      = Some {| IdCounter._message_id := Z.of_nat (length sent) |};
  inv_sent : map cmd_message_id sent = ids_from 0 (length sent);
  inv_outbound : is_Some (command_queues w !! GlibT.send_queue self);
  inv_inbound : inbound_ok w self;
  inv_notifications : notifications_ok w self;
  inv_users :
    ∀ k, is_Some (Control.users (GlibT.control_if self) !! k)
         ↔ k ∈ map ServerConfig.name (GlibT.server_list self);
  inv_devices : is_Some (Devices.device_list (GlibT.device_if self));
  inv_actions :
    ∀ n a, notify_show n ∈ notify_calls w → a ∈ actions n → built_action a
}.

(** What holds of the calls to notify2 and of the log in every
    reachable state. *)
Definition degradation (w : World) (self : GlibT.t) : Prop :=
  (notify_server w = None → notify_calls w = [])
  ∧ error_records w
    = (if PanConfig.notifications (GlibT.config self)
       then match notify_server w with
            | Some _ => []
            | None => [log_error no_server_text]
            end
       else []).

(** ** Parts of methods, and the worlds they lead to *)

(** The three statements that every command method consists of. *)
Definition issue (counter queue : loc) (build : Z → CommandMessage) : M Z :=
  id ← read_message_id counter;
  let message := build id in
  command_queue_put queue message;;
  mret (cmd_message_id message).

(** The world after [issue]: the counter at [counter] was [c] and has
    advanced, the queue at [queue] was [q] and has received [message]. *)
Definition issued (counter queue : loc) (c : IdCounter.t) (q : Queue.t CommandMessage)
    (message : CommandMessage) (w : World) : World :=
  set_command_queues (insert queue (Queue.put message q))
    (set_counters (insert counter (IdCounter.message_id c).2) w).

(** The [if]/[elif] chain of [message_callback], applied to the message
    it took from the queue. *)
Definition handle_event (self : GlibT.t) (message : EventMessage) : M GlibT.t :=
  match message with
  | UpdateDevicesMessage =>
      device_if ← Devices.update_devices (GlibT.device_if self);
      mret (GlibT.set_device_if device_if self)
  | UpdateUsersMessage =>
      control_if ← Control.update_users (GlibT.control_if self);
      mret (GlibT.set_control_if control_if self)
  | UnverifiedDevicesSignal pan_user room_id room_display_name =>
      emit (UnverifiedDevices pan_user room_id room_display_name);;
      (if GlibT.notifications self then GlibT.unverified_notification self message
       else mret tt);;
      mret self
  | InviteSasSignal pan_user user_id device_id transaction_id =>
      emit (VerificationInvite pan_user user_id device_id transaction_id);;
      (if GlibT.notifications self then GlibT.sas_invite_notification self message
       else mret tt);;
      mret self
  | ShowSasSignal pan_user user_id device_id transaction_id emoji =>
      emit (VerificationString pan_user user_id device_id transaction_id emoji);;
      (if GlibT.notifications self then GlibT.sas_show_notification self message
       else mret tt);;
      mret self
  | SasDoneSignal pan_user user_id device_id transaction_id =>
      emit (VerificationDone pan_user user_id device_id transaction_id);;
      (if GlibT.notifications self then GlibT.sas_done_notification self message
       else mret tt);;
      mret self
  | DaemonResponse message_id pan_user code message =>
      emit (Response message_id pan_user
              {[ "code" := code; "message" := message ]});;
      mret self
  | UnrecognizedMessage _ => mret self
  end.

(** The object that [handle_event] leaves: [update_devices] replaces
    the devices cache, [update_users] overwrites the entry of every
    configured server, and the other branches change no field. *)
Definition refreshed (db : Database) (message : EventMessage) (self : GlibT.t) : GlibT.t :=
  match message with
  | UpdateDevicesMessage =>
      GlibT.set_device_if
        (Devices.set_device_list (Some (db_load_all_devices db))
           (GlibT.device_if self)) self
  | UpdateUsersMessage =>
      GlibT.set_control_if
        (Control.set_users
           (users_snapshot db (Control.server_list (GlibT.control_if self))
              ∪ Control.users (GlibT.control_if self))
           (GlibT.control_if self)) self
  | _ => self
  end.

(** The world with the given signals raised and notify2 calls made. *)
Definition with_outputs (signals : list Signal) (calls : list NotifyCall)
    (w : World) : World :=
  {| counters := counters w; command_queues := command_queues w;
     event_queues := event_queues w; database := database w;
     notify_server := notify_server w;
     bus_signals := bus_signals w ++ signals;
     notify_calls := notify_calls w ++ calls; log := log w |}.

(** The world after a firing of the timeout that took [message] from
    the inbound queue [q] and left [rest] in it. *)
Definition fired (l : loc) (q : Queue.t EventMessage) (message : EventMessage)
    (rest : list EventMessage) (calls : list NotifyCall) (w : World) : World :=
  set_event_queues
    (insert l {| Queue.items := rest;
                 Queue.unfinished_tasks := pred (Queue.unfinished_tasks q) |})
    (add_log (log_debug_received message)
       (with_outputs (signal_of message) calls w)).

(** The event kinds for which [message_callback] calls a notification
    function when notifications are on, and those among them whose
    notification function offers actions. *)
Definition renders (message : EventMessage) : bool :=
  match message with
  | UnverifiedDevicesSignal _ _ _ | InviteSasSignal _ _ _ _
  | ShowSasSignal _ _ _ _ _ | SasDoneSignal _ _ _ _ => true
  | _ => false
  end.

Definition actionable (message : EventMessage) : bool :=
  match message with
  | UnverifiedDevicesSignal _ _ _ | InviteSasSignal _ _ _ _
  | ShowSasSignal _ _ _ _ _ => true
  | _ => false
  end.

(** The notify2 calls that handling [message] makes: none, or those of
    one notification function. *)
Definition rendering (self : GlibT.t) (message : EventMessage)
    (calls : list NotifyCall) : Prop :=
  if renders message && GlibT.notifications self then
    ∃ n, calls = (if actionable message then [notify_get_server_caps] else [])
                 ++ [notify_show n]
         ∧ ∀ a, a ∈ actions n → built_action a
  else calls = [].

(** The constructor call behind each action that the notification
    functions build, and whether it goes through [control_if]. *)
Definition action_command (a : NotificationAction) : option (Z → CommandMessage) :=
  match action_callback a, action_user_data a with
  | unverified_send_cb, UnverifiedDevicesSignal pan_user room_id _ =>
      Some (λ i, SendAnywaysMessage i pan_user room_id)
  | unverified_cancel_cb, UnverifiedDevicesSignal pan_user room_id _ =>
      Some (λ i, CancelSendingMessage i pan_user room_id)
  | sas_invite_accept_cb, InviteSasSignal pan_user user_id device_id _ =>
      Some (λ i, AcceptSasMessage i pan_user user_id device_id)
  | sas_invite_cancel_cb, InviteSasSignal pan_user user_id device_id _ =>
      Some (λ i, CancelSasMessage i pan_user user_id device_id)
  | sas_show_confirm_cb, ShowSasSignal pan_user user_id device_id _ _ =>
      Some (λ i, ConfirmSasMessage i pan_user user_id device_id)
  | sas_show_cancel_cb, ShowSasSignal pan_user user_id device_id _ _ =>
      Some (λ i, CancelSasMessage i pan_user user_id device_id)
  | _, _ => None
  end.

Definition action_on_control (a : NotificationAction) : bool :=
  match action_callback a with
  | unverified_send_cb | unverified_cancel_cb => true
  | _ => false
  end.

(** ** A small installation, for examples *)

Definition example_database : Database :=
  {| db_load_users := λ server_name,
       if decide (server_name = "example")
       then [("@alice:example.org", "ALICEDEVICE")] else [];
     db_load_all_users := [("example", [("@alice:example.org", "ALICEDEVICE")])];
     db_load_all_devices :=
       [("@alice:example.org",
         [("@bob:example.org",
           [("BOBDEVICE", {[ "user_id" := "@bob:example.org";
                             "device_id" := "BOBDEVICE" ]})])])] |}.

(** The store of the example after the account of the example server
    has been replaced by another one. *)
Definition example_database_later : Database :=
  {| db_load_users := λ server_name,
       if decide (server_name = "example")
       then [("@bob:example.org", "BOBDEVICE")] else [];
     db_load_all_users := [("example", [("@bob:example.org", "BOBDEVICE")])];
     db_load_all_devices := [] |}.

(** The world at start-up: the inbound queue at location 1, the
    outbound queue at location 2, both new. *)
Definition example_world (server : option (list string)) : World :=
  {| counters := ∅;
     command_queues := {[ 2%positive := {| Queue.items := []; Queue.unfinished_tasks := 0 |} ]};
     event_queues := {[ 1%positive := {| Queue.items := []; Queue.unfinished_tasks := 0 |} ]};
     database := example_database;
     notify_server := server;
     bus_signals := [];
     notify_calls := [];
     log := [] |}.

Definition example_servers : list ServerConfig.t :=
  [{| ServerConfig.name := "example" |}].

Definition example_config (notifications : bool) : PanConfig.t :=
  {| PanConfig.notifications := notifications |}.

(** The object and the world of the example after start-up, without
    and with a notification server. *)
Definition example_store : PanStore.t := {| PanStore.data_dir := "/tmp" |}.

Definition example_self (notifications : bool) : GlibT.t :=
  {| GlibT.receive_queue := 1%positive;
     GlibT.send_queue := 2%positive;
     GlibT.data_dir := "/tmp";
     GlibT.server_list := example_servers;
     GlibT.config := example_config notifications;
     GlibT.loop := Some GLib_MainLoop;
     GlibT.store := example_store;
     GlibT.users := db_load_all_users example_database;
     GlibT.control_if :=
       {| Control.server_list := example_servers;
          Control.store := example_store;
          Control.queue := 2%positive;
          Control.id_counter := 1%positive;
          Control.users :=
            {[ "example" := [("@alice:example.org", "ALICEDEVICE")] ]} |};
     GlibT.device_if :=
       {| Devices.store := example_store;
          Devices.device_list := Some (db_load_all_devices example_database);
          Devices.queue := 2%positive;
          Devices.id_counter := 1%positive |};
     GlibT.notifications := notifications |}.

(** The example world once the counter exists and [events] wait in the
    inbound queue. *)
Definition example_running (server : option (list string))
    (events : list EventMessage) : World :=
  {| counters := {[ 1%positive := IdCounter.__init__ ]};
     command_queues := {[ 2%positive := {| Queue.items := []; Queue.unfinished_tasks := 0 |} ]};
     event_queues :=
       {[ 1%positive := {| Queue.items := events;
                           Queue.unfinished_tasks := length events |} ]};
     database := example_database;
     notify_server := server;
     bus_signals := [];
     notify_calls := [];
     log := [] |}.


(** ** Further descriptions *)

(** The devices of an account in a devices cache, flattened user by
    user in the order of the cache; an account that the cache does not
    hold has none. *)
Definition devices_of (cache : dict DeviceStore) (pan_user : string)
    : list DeviceRecord :=
  concat (map dict_values (dict_values (default [] (dict_get pan_user cache)))).

(** The store of the example once it holds no device any more. *)
Definition example_no_devices : Database :=
  {| db_load_users := db_load_users example_database;
     db_load_all_users := db_load_all_users example_database;
     db_load_all_devices := [] |}.

(** The keys of the actions that the notification function of an event
    kind adds, in the order of its [add_action] calls. *)
Definition action_keys (message : EventMessage) : list string :=
  match message with
  | UnverifiedDevicesSignal _ _ _ => ["send"; "cancel"]
  | InviteSasSignal _ _ _ _ => ["accept"; "cancel"]
  | ShowSasSignal _ _ _ _ _ => ["confirm"; "cancel"]
  | _ => []
  end.



(** * Properties *)

(** ** Running the monad *)

Lemma bind_ok {A B : Type} (m : M A) (f : A → M B) w a w1 :
  m w = Ok a w1 → (m ≫= f) w = f a w1.
Proof. intros H. unfold mbind, M_bind. by rewrite H. Qed.

Lemma bind_ok_inv {A B : Type} (m : M A) (f : A → M B) w b w2 :
  (m ≫= f) w = Ok b w2 → ∃ a w1, m w = Ok a w1 ∧ f a w1 = Ok b w2.
Proof.
  unfold mbind, M_bind. destruct (m w) as [a w1|e w1]; [|done].
  intros H. by exists a, w1.
Qed.

Lemma fmap_ok {A B : Type} (g : A → B) (m : M A) w a w1 :
  m w = Ok a w1 → (g <$> m) w = Ok (g a) w1.
Proof. intros H. unfold fmap, M_fmap. by rewrite H. Qed.

Lemma fmap_ok_inv {A B : Type} (g : A → B) (m : M A) w b w1 :
  (g <$> m) w = Ok b w1 → ∃ a, m w = Ok a w1 ∧ b = g a.
Proof.
  unfold fmap, M_fmap. destruct (m w) as [a w2|e w2]; [|done].
  intros [= <- <-]. by exists a.
Qed.

(** Unfolds the monad operations, then splits on every scrutinee. *)
Ltac unfold_monad :=
  unfold getattr, try_except, raise in *;
  unfold mbind, M_bind, mret, M_ret, fmap, M_fmap in *;
  cbn beta iota in *.

Ltac run_monad :=
  unfold_monad; repeat (case_match; simplify_eq /=; unfold_monad);
  intros; simplify_eq /=.

(** ** The allocator *)

Lemma ids_from_S first n :
  ids_from first (S n) = first :: ids_from (first + 1) n.
Proof.
  unfold ids_from. simpl. f_equal; [lia|].
  rewrite <- seq_shift, map_map. apply map_ext. intros k. lia.
Qed.

Lemma ids_from_snoc first n :
  ids_from first (S n) = ids_from first n ++ [first + Z.of_nat n].
Proof.
  unfold ids_from. replace (S n) with (n + 1)%nat by lia.
  by rewrite seq_app, map_app.
Qed.

Lemma ids_from_length first n : length (ids_from first n) = n.
Proof. unfold ids_from. by rewrite length_map, length_seq. Qed.

Lemma ids_from_lookup first n i :
  (i < n)%nat → ids_from first n !! i = Some (first + Z.of_nat i).
Proof.
  intros Hi. unfold ids_from. rewrite list_lookup_fmap.
  by rewrite lookup_seq_lt.
Qed.

Lemma ids_from_zero n : ids_from 0 n = map Z.of_nat (seq 0 n).
Proof. unfold ids_from. apply map_ext. intros k. lia. Qed.

Lemma reads_from n c :
  IdCounter.reads n c
  = (ids_from (IdCounter._message_id c) n,
     {| IdCounter._message_id := IdCounter._message_id c + Z.of_nat n |}).
Proof.
  revert c. induction n as [|n IH]; intros [v].
  - cbn. rewrite Z.add_0_r. reflexivity.
  - rewrite ids_from_S. cbn [IdCounter.reads IdCounter.message_id].
    rewrite IH. cbn. do 2 f_equal. lia.
Qed.

(** ** Command methods *)

Lemma issue_ok counter queue build c q w :
  counters w !! counter = Some c →
  command_queues w !! queue = Some q →
  (∀ i, cmd_message_id (build i) = i) →
  issue counter queue build w
  = Ok (IdCounter._message_id c)
       (issued counter queue c q (build (IdCounter._message_id c)) w).
Proof.
  intros Hc Hq Hid. unfold issue.
  erewrite bind_ok; last by (unfold read_message_id; rewrite Hc).
  erewrite bind_ok; last by (unfold command_queue_put; cbn; rewrite Hq).
  cbn. by rewrite Hid.
Qed.

Lemma command_of_id c build i :
  DBus.command_of c = Some build → cmd_message_id (build i) = i.
Proof. destruct c; intros [= <-]; reflexivity. Qed.

Lemma command_of_query c :
  DBus.command_of c = None ↔ DBus.is_query c = true.
Proof. destruct c; cbn; split; (done || congruence). Qed.

Lemma handle_command self c build :
  DBus.command_of c = Some build →
  DBus.handle self c
  = DBus.id <$> issue (DBus.counter_of self c) (DBus.queue_of self c) build.
Proof. destruct c; intros [= <-]; reflexivity. Qed.

Lemma handle_command_ok self c build cv q w :
  DBus.command_of c = Some build →
  counters w !! DBus.counter_of self c = Some cv →
  command_queues w !! DBus.queue_of self c = Some q →
  DBus.handle self c w
  = Ok (DBus.id (IdCounter._message_id cv))
       (issued (DBus.counter_of self c) (DBus.queue_of self c) cv q
          (build (IdCounter._message_id cv)) w).
Proof.
  intros Hb Hc Hq. rewrite (handle_command _ _ _ Hb).
  apply fmap_ok, issue_ok; [done..|].
  intros i. by eapply command_of_id.
Qed.

(** ** Queries *)

Lemma List_pure self pan_user w r w' :
  Devices.List self pan_user w = Ok r w' → w' = w.
Proof.
  unfold Devices.List. run_monad; congruence.
Qed.

Lemma ListUserDevices_pure self pan_user user_id w r w' :
  Devices.ListUserDevices self pan_user user_id w = Ok r w' → w' = w.
Proof.
  unfold Devices.ListUserDevices. run_monad; congruence.
Qed.

Lemma handle_query_pure self c w r w' :
  DBus.is_query c = true → DBus.handle self c w = Ok r w' → w' = w.
Proof.
  destruct c; try done; intros _ H; apply fmap_ok_inv in H as (a & H & _).
  - unfold Control.ListServers in H. run_monad. congruence.
  - by eapply List_pure.
  - by eapply ListUserDevices_pure.
Qed.

(** ** The users cache *)

Lemma update_users_from_ok servers self w :
  Control.update_users_from servers self w
  = Ok (Control.set_users
          (foldl (λ users server,
                    <[ServerConfig.name server :=
                        db_load_users (database w) (ServerConfig.name server)]> users)
             (Control.users self) servers) self) w.
Proof.
  revert self. induction servers as [|server rest IH]; intros self.
  - by destruct self.
  - cbn [Control.update_users_from foldl].
    erewrite bind_ok; last reflexivity. rewrite IH. by destruct self.
Qed.

Lemma users_snapshot_lookup db servers k :
  users_snapshot db servers !! k
  = if decide (k ∈ map ServerConfig.name servers)
    then Some (db_load_users db k) else None.
Proof.
  unfold users_snapshot. induction servers as [|server rest IH]; [done|].
  cbn [map]. rewrite list_to_map_cons, lookup_insert, IH.
  destruct (decide (ServerConfig.name server = k)) as [<-|Hne].
  - rewrite decide_True; [done|]. apply elem_of_cons. by left.
  - destruct (decide (k ∈ map ServerConfig.name rest)) as [Hin|Hout].
    + rewrite decide_True; [done|]. apply elem_of_cons. by right.
    + rewrite decide_False; [done|]. apply not_elem_of_cons. by split.
Qed.

Lemma fold_users_lookup db servers (users : gmap string (list UserRecord)) k :
  foldl (λ users server,
           <[ServerConfig.name server := db_load_users db (ServerConfig.name server)]> users)
    users servers !! k
  = if decide (k ∈ map ServerConfig.name servers)
    then Some (db_load_users db k) else users !! k.
Proof.
  revert users. induction servers as [|server rest IH]; intros users; [done|].
  cbn [foldl map]. rewrite IH.
  destruct (decide (k ∈ map ServerConfig.name rest)) as [Hin|Hout].
  - rewrite decide_True; [done|]. apply elem_of_cons. by right.
  - destruct (decide (ServerConfig.name server = k)) as [<-|Hne].
    + rewrite decide_True; [|apply elem_of_cons; by left].
      by rewrite lookup_insert_eq.
    + rewrite decide_False; [|apply not_elem_of_cons; by split].
      by rewrite lookup_insert_ne.
Qed.

Lemma fold_users_snapshot db servers (users : gmap string (list UserRecord)) :
  foldl (λ users server,
           <[ServerConfig.name server := db_load_users db (ServerConfig.name server)]> users)
    users servers
  = users_snapshot db servers ∪ users.
Proof.
  apply map_eq. intros k. rewrite fold_users_lookup, lookup_union.
  rewrite users_snapshot_lookup.
  destruct (decide (k ∈ map ServerConfig.name servers));
    by destruct (users !! k).
Qed.

Lemma update_users_ok self w :
  Control.update_users self w
  = Ok (Control.set_users
          (users_snapshot (database w) (Control.server_list self)
             ∪ Control.users self) self) w.
Proof.
  unfold Control.update_users. rewrite update_users_from_ok.
  by rewrite fold_users_snapshot.
Qed.

(** ** One firing of the timeout *)

Lemma message_callback_unfold self :
  GlibT.message_callback self
  = (got ← try_except
             (message ← event_queue_get_nowait (GlibT.receive_queue self);
              mret (Some message))
             Empty (mret None);
     match got with
     | None => mret (true, self)
     | Some message =>
         logger.debug (log_debug_received message);;
         self' ← handle_event self message;
         event_queue_task_done (GlibT.receive_queue self');;
         mret (true, self')
     end).
Proof. reflexivity. Qed.

Lemma with_outputs_nil w : with_outputs [] [] w = w.
Proof. destruct w. unfold with_outputs. cbn. by rewrite !app_nil_r. Qed.

Lemma with_outputs_signal s w : add_signal s w = with_outputs [s] [] w.
Proof. destruct w. unfold with_outputs, add_signal. cbn. by rewrite app_nil_r. Qed.

Lemma handle_event_ok self message w :
  (renders message = true → notifications_ok w self) →
  ∃ calls,
    handle_event self message w
    = Ok (refreshed (database w) message self)
         (with_outputs (signal_of message) calls w)
    ∧ rendering self message calls.
Proof.
  intros Hn. unfold rendering.
  destruct message; cbn [handle_event signal_of refreshed renders actionable andb].
  1: { exists []. split; [|done]. by rewrite with_outputs_nil. }
  1: { exists []. split; [|done]. rewrite with_outputs_nil.
       erewrite bind_ok; last apply update_users_ok. done. }
  5: { exists []. split; [|done]. by rewrite <- with_outputs_signal. }
  5: { exists []. split; [|done]. by rewrite with_outputs_nil. }
  all: destruct (GlibT.notifications self) eqn:Hflag.
  all: try (exists []; split; [|done]; by rewrite <- with_outputs_signal).
  all: destruct (Hn eq_refl Hflag) as [caps Hcaps].
  all: destruct w; cbn in Hcaps; subst.
  all: unfold GlibT.unverified_notification, GlibT.sas_invite_notification,
         GlibT.sas_show_notification, GlibT.sas_done_notification,
         notify2.get_server_caps, notify2.show, emit.
  all: unfold_monad; cbn.
  all: eexists; split;
         [unfold with_outputs, add_notify_call, add_signal; cbn;
          rewrite <- ?app_assoc; reflexivity|].
  all: eexists; split; [reflexivity|].
  all: try case_bool_decide; cbn.
  all: intros a Ha; repeat (apply elem_of_cons in Ha as [->|Ha]); try done.
  all: by apply elem_of_nil in Ha.
Qed.

Lemma refreshed_receive_queue db message self :
  GlibT.receive_queue (refreshed db message self) = GlibT.receive_queue self.
Proof. by destruct message. Qed.

Lemma refreshed_notifications db message self :
  GlibT.notifications (refreshed db message self) = GlibT.notifications self.
Proof. by destruct message. Qed.

Lemma message_callback_empty self q w :
  event_queues w !! GlibT.receive_queue self = Some q →
  Queue.items q = [] →
  GlibT.message_callback self w = Ok (true, self) w.
Proof.
  intros Hq Hitems. unfold GlibT.message_callback, event_queue_get_nowait.
  unfold_monad. rewrite Hq. unfold Queue.get_nowait. rewrite Hitems.
  by rewrite decide_True.
Qed.

Lemma message_callback_cons self q message rest w :
  event_queues w !! GlibT.receive_queue self = Some q →
  Queue.items q = message :: rest →
  Queue.accounted q →
  (renders message = true → notifications_ok w self) →
  ∃ calls,
    GlibT.message_callback self w
    = Ok (true, refreshed (database w) message self)
         (fired (GlibT.receive_queue self) q message rest calls w)
    ∧ rendering self message calls.
Proof.
  intros Hq Hitems Hacc Hn. rewrite message_callback_unfold.
  set (w1 := set_event_queues
               (insert (GlibT.receive_queue self)
                  {| Queue.items := rest;
                     Queue.unfinished_tasks := Queue.unfinished_tasks q |}) w).
  set (w2 := add_log (log_debug_received message) w1).
  destruct (handle_event_ok self message w2) as (calls & Hh & Hcalls); [done|].
  exists calls. split; [|done].
  erewrite bind_ok; last first.
  { unfold try_except. erewrite bind_ok; last first.
    { unfold event_queue_get_nowait. rewrite Hq. unfold Queue.get_nowait.
      rewrite Hitems. reflexivity. }
    reflexivity. }
  cbn beta iota. erewrite bind_ok; last reflexivity.
  erewrite bind_ok; last exact Hh.
  rewrite refreshed_receive_queue.
  unfold Queue.accounted in Hacc. rewrite Hitems in Hacc. cbn in Hacc.
  destruct (Queue.unfinished_tasks q) as [|n] eqn:Hu; [lia|].
  erewrite bind_ok; last first.
  { unfold event_queue_task_done. cbn. rewrite lookup_insert_eq.
    unfold Queue.task_done. cbn. reflexivity. }
  unfold mret, M_ret, fired. rewrite Hu. f_equal.
  subst w1 w2. destruct w. unfold set_event_queues, with_outputs, add_log. cbn.
  by rewrite insert_insert_eq.
Qed.

(** ** Actions of notifications *)

Lemma invoke_built self a :
  built_action a →
  ∃ build,
    action_command a = Some build
    ∧ (∀ i, cmd_message_id (build i) = i)
    ∧ GlibT.invoke self (action_callback a) (action_user_data a)
      = (issue
           (if action_on_control a
            then Control.id_counter (GlibT.control_if self)
            else Devices.id_counter (GlibT.device_if self))
           (if action_on_control a
            then Control.queue (GlibT.control_if self)
            else Devices.queue (GlibT.device_if self))
           build;;
         mret tt).
Proof.
  destruct a as [key label cb ud]. unfold built_action, action_command,
    action_on_control. cbn.
  destruct cb, ud; try done; intros _; eexists; (split; [reflexivity|]);
    (split; [done|reflexivity]).
Qed.

(** ** Start-up *)

Lemma post_init_ok receive_queue send_queue data_dir server_list config w :
  let l := fresh (dom (counters w)) in
  let store := {| PanStore.data_dir := data_dir |} in
  GlibT.__attrs_post_init__ receive_queue send_queue data_dir server_list config w
  = Ok {| GlibT.receive_queue := receive_queue;
          GlibT.send_queue := send_queue;
          GlibT.data_dir := data_dir;
          GlibT.server_list := server_list;
          GlibT.config := config;
          GlibT.loop := None;
          GlibT.store := store;
          GlibT.users := db_load_all_users (database w);
          GlibT.control_if :=
            {| Control.server_list := server_list; Control.store := store;
               Control.queue := send_queue; Control.id_counter := l;
               Control.users := users_snapshot (database w) server_list ∪ ∅ |};
          GlibT.device_if :=
            {| Devices.store := store;
               Devices.device_list := Some (db_load_all_devices (database w));
               Devices.queue := send_queue; Devices.id_counter := l |};
          GlibT.notifications := false |}
       (set_counters (insert l IdCounter.__init__) w).
Proof.
  intros l store. unfold GlibT.__attrs_post_init__.
  erewrite bind_ok; last reflexivity.
  erewrite bind_ok; last reflexivity.
  erewrite bind_ok; last apply update_users_ok.
  erewrite bind_ok; last reflexivity.
  reflexivity.
Qed.

Lemma run_disabled self w :
  PanConfig.notifications (GlibT.config self) = false →
  GlibT.run self w = Ok (GlibT.set_loop (Some GLib_MainLoop) self) w.
Proof. intros H. unfold GlibT.run. cbn. by rewrite H. Qed.

Lemma run_server self caps w :
  PanConfig.notifications (GlibT.config self) = true →
  notify_server w = Some caps →
  GlibT.run self w
  = Ok (GlibT.set_notifications true (GlibT.set_loop (Some GLib_MainLoop) self))
       (add_notify_call (notify_init "pantalaimon") w).
Proof.
  intros H Hs. unfold GlibT.run. cbn. rewrite H. unfold try_except.
  erewrite bind_ok; last by (unfold notify2.init; rewrite Hs).
  reflexivity.
Qed.

Lemma run_no_server self w :
  PanConfig.notifications (GlibT.config self) = true →
  notify_server w = None →
  GlibT.run self w
  = Ok (GlibT.set_notifications false (GlibT.set_loop (Some GLib_MainLoop) self))
       (add_log
          (log_error ("Notifications are enabled but no notification "
                      +:+ "server could be found, disabling notifications."))
          w).
Proof.
  intros H Hs. unfold GlibT.run. cbn. rewrite H. unfold try_except.
  unfold mbind at 1, M_bind at 1. unfold notify2.init at 1. rewrite Hs.
  rewrite decide_True; [|done]. reflexivity.
Qed.

(** ** The invariant *)

Lemma newly_put_same self w w' :
  command_queues w' = command_queues w → newly_put self w w' = [].
Proof.
  intros H. unfold newly_put, outbound. rewrite H. apply drop_all.
Qed.

Lemma outbound_issued self counter c q message w :
  outbound self (issued counter (GlibT.send_queue self) c q message w)
  = Queue.items q ++ [message].
Proof. unfold outbound, issued. cbn. by rewrite lookup_insert_eq. Qed.

Lemma newly_put_issued self counter c q message w :
  command_queues w !! GlibT.send_queue self = Some q →
  newly_put self w (issued counter (GlibT.send_queue self) c q message w)
  = [message].
Proof.
  intros Hq. unfold newly_put. rewrite outbound_issued.
  unfold outbound. rewrite Hq. cbn. by rewrite drop_app_length.
Qed.

Lemma invariant_frame sent w w' self :
  invariant sent w self →
  counters w' = counters w →
  is_Some (command_queues w' !! GlibT.send_queue self) →
  inbound_ok w' self →
  notify_server w' = notify_server w →
  (∀ n a, notify_show n ∈ notify_calls w' → a ∈ actions n → built_action a) →
  invariant sent w' self.
Proof.
  intros [] Hc Hq Hin Hs Ha. constructor; try done.
  - by rewrite Hc.
  - unfold notifications_ok. by rewrite Hs.
Qed.

Lemma invariant_refreshed sent w self db message :
  invariant sent w self → invariant sent w (refreshed db message self).
Proof.
  intros [Hsh Hc Hsent Hout Hin Hn Hu Hd Ha].
  destruct message; try (by constructor).
  destruct Hsh as (H1 & H2 & H3 & H4).
  constructor; try done. cbn. intros k.
  rewrite lookup_union, users_snapshot_lookup, H4.
  destruct (decide (k ∈ map ServerConfig.name (GlibT.server_list self)))
    as [Hk|Hk].
  - split; [done|]. intros _.
    destruct (Control.users (GlibT.control_if self) !! k); by eexists.
  - rewrite <- Hu. by destruct (Control.users (GlibT.control_if self) !! k).
Qed.

Lemma invariant_issued sent w self q build :
  invariant sent w self →
  command_queues w !! GlibT.send_queue self = Some q →
  (∀ i, cmd_message_id (build i) = i) →
  invariant (sent ++ [build (Z.of_nat (length sent))])
    (issued (Control.id_counter (GlibT.control_if self)) (GlibT.send_queue self)
       {| IdCounter._message_id := Z.of_nat (length sent) |} q
       (build (Z.of_nat (length sent))) w)
    self.
Proof.
  intros [Hsh Hc Hsent Hout Hin Hn Hu Hd Ha] Hq Hid.
  constructor; try done.
  - cbn. rewrite lookup_insert_eq. do 2 f_equal. rewrite length_app. cbn. lia.
  - rewrite map_app, length_app. cbn [length map].
    replace (length sent + 1)%nat with (S (length sent)) by lia.
    rewrite ids_from_snoc, Hsent, Hid. by rewrite Z.add_0_l.
  - cbn. rewrite lookup_insert_eq. by eexists.
Qed.

Lemma invariant_start w0 receive_queue send_queue data_dir server_list config
    self1 w1 self2 w2 :
  startup_world w0 receive_queue send_queue →
  GlibT.__attrs_post_init__ receive_queue send_queue data_dir server_list
    config w0 = Ok self1 w1 →
  GlibT.run self1 w1 = Ok self2 w2 →
  invariant [] w2 self2.
Proof.
  intros (Hin & Hout & Hsig & Hcalls & Hlog) Hinit Hrun.
  rewrite post_init_ok in Hinit. injection Hinit as <- <-.
  assert (Husers : ∀ k,
    is_Some ((users_snapshot (database w0) server_list ∪ ∅) !! k)
    ↔ k ∈ map ServerConfig.name server_list).
  { intros k. rewrite lookup_union, users_snapshot_lookup, lookup_empty.
    destruct (decide (k ∈ map ServerConfig.name server_list)) as [Hk|Hk]; cbn.
    - split; [done|]. intros _. by eexists.
    - split; [by intros [? ?]|done]. }
  destruct (PanConfig.notifications config) eqn:Hcfg.
  - destruct (notify_server w0) as [caps|] eqn:Hs.
    + erewrite run_server in Hrun; [|done|exact Hs]. injection Hrun as <- <-.
      constructor; try done; cbn.
      * by rewrite lookup_insert_eq.
      * unfold notifications_ok. cbn. rewrite Hs. by eexists.
      * rewrite Hcalls. intros n a Hn. cbn in Hn.
        apply list_elem_of_singleton in Hn. done.
    + erewrite run_no_server in Hrun; [|done|exact Hs]. injection Hrun as <- <-.
      constructor; try done; cbn.
      * by rewrite lookup_insert_eq.
      * rewrite Hcalls. intros n a Hn. by apply elem_of_nil in Hn.
  - rewrite run_disabled in Hrun; [|done]. injection Hrun as <- <-.
    constructor; try done; cbn.
    + by rewrite lookup_insert_eq.
    + rewrite Hcalls. intros n a Hn. by apply elem_of_nil in Hn.
Qed.

Lemma shared_counter_of self c :
  shared self →
  DBus.counter_of self c = Control.id_counter (GlibT.control_if self)
  ∧ DBus.queue_of self c = GlibT.send_queue self.
Proof.
  intros (H1 & H2 & H3 & _). unfold DBus.counter_of, DBus.queue_of.
  destruct (DBus.on_control c); by rewrite <- ?H1, ?H2, ?H3.
Qed.

(** What a command call does in a state that satisfies the invariant. *)
Lemma handle_command_invariant sent w self c build :
  invariant sent w self →
  DBus.command_of c = Some build →
  ∃ q,
    command_queues w !! GlibT.send_queue self = Some q
    ∧ DBus.handle self c w
      = Ok (DBus.id (Z.of_nat (length sent)))
           (issued (Control.id_counter (GlibT.control_if self))
              (GlibT.send_queue self)
              {| IdCounter._message_id := Z.of_nat (length sent) |} q
              (build (Z.of_nat (length sent))) w).
Proof.
  intros Hinv Hb. destruct (inv_outbound _ _ _ Hinv) as [q Hq].
  exists q. split; [done|].
  destruct (shared_counter_of self c (inv_shared _ _ _ Hinv)) as [Hc1 Hq1].
  rewrite (handle_command_ok self c build
             {| IdCounter._message_id := Z.of_nat (length sent) |} q w Hb).
  - by rewrite Hc1, Hq1.
  - rewrite Hc1. apply (inv_counter _ _ _ Hinv).
  - by rewrite Hq1.
Qed.

(** What picking an action does in a state that satisfies the
    invariant. *)
Lemma invoke_invariant sent w self a :
  invariant sent w self →
  built_action a →
  ∃ q build,
    command_queues w !! GlibT.send_queue self = Some q
    ∧ action_command a = Some build
    ∧ (∀ i, cmd_message_id (build i) = i)
    ∧ GlibT.invoke self (action_callback a) (action_user_data a) w
      = Ok tt
           (issued (Control.id_counter (GlibT.control_if self))
              (GlibT.send_queue self)
              {| IdCounter._message_id := Z.of_nat (length sent) |} q
              (build (Z.of_nat (length sent))) w).
Proof.
  intros Hinv Hb. destruct (inv_outbound _ _ _ Hinv) as [q Hq].
  destruct (invoke_built self a Hb) as (build & Hbuild & Hid & Hinvoke).
  exists q, build. do 3 (split; [done|]).
  rewrite Hinvoke. destruct (inv_shared _ _ _ Hinv) as (H1 & H2 & H3 & _).
  erewrite bind_ok; last first.
  { apply (issue_ok _ _ _ {| IdCounter._message_id := Z.of_nat (length sent) |} q);
      [|by destruct (action_on_control a); rewrite ?H2, ?H3|done].
    destruct (action_on_control a); rewrite <- ?H1; apply (inv_counter _ _ _ Hinv). }
  cbn. destruct (action_on_control a); by rewrite <- ?H1, ?H2, ?H3.
Qed.

Lemma inbound_ok_fired self q message rest calls w :
  event_queues w !! GlibT.receive_queue self = Some q →
  Queue.items q = message :: rest →
  Queue.accounted q →
  inbound_ok (fired (GlibT.receive_queue self) q message rest calls w) self.
Proof.
  intros Hq Hitems Hacc. eexists. split.
  - unfold fired. cbn. apply lookup_insert_eq.
  - unfold Queue.accounted in *. rewrite Hitems in Hacc. cbn in *. lia.
Qed.

Theorem reach_invariant sent w self : reach sent w self → invariant sent w self.
Proof.
  induction 1 as
    [w0 rq sq dd sl cfg self1 w1 self2 w2 Hstart Hinit Hrun
    |sent w self c r w' Hreach IH Hcall
    |sent w self continue self' w' Hreach IH Htick
    |sent w self n a w' Hreach IH Hshown Ha Hinvoke
    |sent w self message q Hreach IH Hq
    |sent w self q message q' Hreach IH Hq Hget
    |sent w self db Hreach IH].
  - by eapply invariant_start.
  - destruct (DBus.command_of c) as [build|] eqn:Hb.
    + destruct (handle_command_invariant _ _ _ _ _ IH Hb) as (q & Hq & Heq).
      rewrite Heq in Hcall. injection Hcall as <- <-.
      rewrite newly_put_issued; [|done].
      apply invariant_issued; [done..|]. intros i. by eapply command_of_id.
    + apply command_of_query in Hb.
      apply (handle_query_pure _ _ _ _ _ Hb) in Hcall as ->.
      rewrite newly_put_same; [|done]. by rewrite app_nil_r.
  - destruct (inv_inbound _ _ _ IH) as (q & Hq & Hacc).
    destruct (Queue.items q) as [|message rest] eqn:Hitems.
    + rewrite (message_callback_empty _ _ _ Hq Hitems) in Htick.
      injection Htick as <- <- <-.
      rewrite newly_put_same; [|done]. by rewrite app_nil_r.
    + destruct (message_callback_cons _ _ _ _ _ Hq Hitems Hacc
                  (λ _, inv_notifications _ _ _ IH)) as (calls & Heq & Hcalls).
      rewrite Heq in Htick. injection Htick as <- <- <-.
      rewrite newly_put_same; [|done]. rewrite app_nil_r.
      apply invariant_refreshed.
      eapply invariant_frame; [exact IH|done| |by apply inbound_ok_fired|done|].
      * apply (inv_outbound _ _ _ IH).
      * intros n a Hn Hin. cbn in Hn. apply elem_of_app in Hn as [Hn|Hn].
        { by eapply (inv_actions _ _ _ IH). }
        unfold rendering in Hcalls.
        destruct (renders message && GlibT.notifications self);
          [|subst calls; by apply elem_of_nil in Hn].
        destruct Hcalls as (n' & -> & Hbuilt).
        apply elem_of_app in Hn as [Hn|Hn].
        { destruct (actionable message); [|by apply elem_of_nil in Hn].
          by apply list_elem_of_singleton in Hn. }
        apply list_elem_of_singleton in Hn. injection Hn as ->. by apply Hbuilt.
  - assert (Hb : built_action a) by (by eapply (inv_actions _ _ _ IH)).
    destruct (invoke_invariant _ _ _ _ IH Hb) as (q & build & Hq & _ & Hid & Heq).
    rewrite Heq in Hinvoke. injection Hinvoke as <-.
    rewrite newly_put_issued; [|done]. by apply invariant_issued.
  - eapply invariant_frame; [exact IH|done|apply (inv_outbound _ _ _ IH)| |done|].
    + destruct (inv_inbound _ _ _ IH) as (q0 & Hq0 & Hacc).
      rewrite Hq in Hq0. injection Hq0 as <-.
      eexists. split; [cbn; apply lookup_insert_eq|].
      unfold Queue.accounted in *. cbn. rewrite length_app. cbn. lia.
    + apply (inv_actions _ _ _ IH).
  - eapply invariant_frame; [exact IH|done| |apply (inv_inbound _ _ _ IH)|done|].
    + cbn. rewrite lookup_insert_eq. by eexists.
    + apply (inv_actions _ _ _ IH).
  - eapply invariant_frame; [exact IH|done|apply (inv_outbound _ _ _ IH)
                            |apply (inv_inbound _ _ _ IH)|done|].
    apply (inv_actions _ _ _ IH).
Qed.

Lemma handle_query_ok self cache c w :
  Devices.device_list (GlibT.device_if self) = Some cache →
  DBus.is_query c = true →
  ∃ r, DBus.handle self c w = Ok r w.
Proof.
  intros Hcache Hc. destruct c; try done; cbn; unfold_monad.
  - by eexists.
  - unfold Devices.List. rewrite Hcache. unfold_monad.
    destruct (falsy _); by eexists.
  - unfold Devices.ListUserDevices. rewrite Hcache. unfold_monad.
    destruct (falsy _); [by eexists|]. destruct (falsy _); by eexists.
Qed.

(** * The claims *)

Lemma startup_example server : startup_world (example_world server) 1%positive 2%positive.
Proof.
  repeat split; try done.
  eexists. split; [reflexivity|]. unfold Queue.accounted. cbn. lia.
Qed.

Lemma example_reach :
  reach [] (example_running None []) (example_self false).
Proof.
  eapply (reach_start (example_world None) 1%positive 2%positive "/tmp"
            example_servers (example_config false)).
  - apply startup_example.
  - vm_compute. reflexivity.
  - vm_compute. reflexivity.
Qed.

(** C1: [N] reads of [IdCounter.message_id] on a new counter return
    0, 1, ..., N-1 in call order; and in every execution the two
    interface objects hold the same counter, the commands put on the
    outbound queue carry the ids 0, 1, 2, ... in the order in which they
    were put, so a later command has a strictly greater id than an
    earlier one, whichever interface object built it. *)
Theorem C1_ids_in_call_order :
  (∀ N, (IdCounter.reads N IdCounter.__init__).1 = map Z.of_nat (seq 0 N))
  ∧ (∀ sent w self,
       reach sent w self →
       Control.id_counter (GlibT.control_if self)
         = Devices.id_counter (GlibT.device_if self)
       ∧ map cmd_message_id sent = map Z.of_nat (seq 0 (length sent))
       ∧ ∀ i j earlier later,
           (i < j)%nat → sent !! i = Some earlier → sent !! j = Some later →
           cmd_message_id earlier < cmd_message_id later).
Proof.
  split.
  - intros N. rewrite reads_from. cbn. apply ids_from_zero.
  - intros sent w self Hreach.
    destruct (reach_invariant _ _ _ Hreach) as [Hsh _ Hsent _ _ _ _ _ _].
    split; [apply Hsh|]. split; [by rewrite Hsent, ids_from_zero|].
    intros i j earlier later Hij Hi Hj.
    assert (Hlen : (j < length sent)%nat) by (by eapply lookup_lt_Some).
    assert (Hi' : map cmd_message_id sent !! i = Some (cmd_message_id earlier))
      by (by rewrite list_lookup_fmap, Hi).
    assert (Hj' : map cmd_message_id sent !! j = Some (cmd_message_id later))
      by (by rewrite list_lookup_fmap, Hj).
    rewrite Hsent in Hi', Hj'.
    rewrite ids_from_lookup in Hi' by lia. rewrite ids_from_lookup in Hj' by lia.
    injection Hi' as <-. injection Hj' as <-. lia.
Qed.

(** An execution with one call on each interface object. *)
Lemma C1_witness :
  ∃ sent w self,
    reach sent w self
    ∧ sent = [ExportKeysMessage 0 "@alice:example.org" "/tmp/k.txt" "pw";
              DeviceVerifyMessage 1 "@alice:example.org" "@bob:example.org"
                "BOBDEVICE"]
    ∧ Control.id_counter (GlibT.control_if self)
        = Devices.id_counter (GlibT.device_if self)
    ∧ map cmd_message_id sent = map Z.of_nat (seq 0 (length sent))
    ∧ ∀ i j earlier later,
        (i < j)%nat → sent !! i = Some earlier → sent !! j = Some later →
        cmd_message_id earlier < cmd_message_id later.
Proof.
  assert (H : ∃ sent w self,
    reach sent w self
    ∧ sent = [ExportKeysMessage 0 "@alice:example.org" "/tmp/k.txt" "pw";
              DeviceVerifyMessage 1 "@alice:example.org" "@bob:example.org"
                "BOBDEVICE"]).
  { eexists _, _, _. split.
    - eapply (reach_call _ _ _
                (DBus.Verify "@alice:example.org" "@bob:example.org" "BOBDEVICE")).
      + eapply (reach_call _ _ _
                  (DBus.ExportKeys "@alice:example.org" "/tmp/k.txt" "pw")).
        * eapply (reach_start (example_world None) 1%positive 2%positive "/tmp" example_servers
                    (example_config false)).
          -- apply startup_example.
          -- vm_compute. reflexivity.
          -- vm_compute. reflexivity.
        * vm_compute. reflexivity.
      + vm_compute. reflexivity.
    - vm_compute. reflexivity. }
  destruct H as (sent & w & self & Hreach & Hsent).
  exists sent, w, self. split; [done|]. split; [done|].
  apply (proj2 C1_ids_in_call_order sent w self Hreach).
Defined.

(** C3: every command method puts exactly one message on the outbound
    queue, whatever the queue already holds, never raises, and returns
    the id that the message carries. *)
Theorem C3_command_enqueues_one_message self c build w :
  surfaces_allocated w self →
  DBus.command_of c = Some build →
  ∃ i q w',
    command_queues w !! DBus.queue_of self c = Some q
    ∧ DBus.handle self c w = Ok (DBus.id i) w'
    ∧ command_queues w'
      = <[DBus.queue_of self c := Queue.put (build i) q]> (command_queues w)
    ∧ (∀ q', command_queues w' !! DBus.queue_of self c = Some q' →
             Queue.items q' = Queue.items q ++ [build i])
    ∧ cmd_message_id (build i) = i.
Proof.
  intros (Hc1 & Hc2 & Hq1 & Hq2) Hb.
  assert (Hc : is_Some (counters w !! DBus.counter_of self c))
    by (unfold DBus.counter_of; by destruct (DBus.on_control c)).
  assert (Hq : is_Some (command_queues w !! DBus.queue_of self c))
    by (unfold DBus.queue_of; by destruct (DBus.on_control c)).
  destruct Hc as [cv Hc], Hq as [q Hq].
  exists (IdCounter._message_id cv), q. eexists.
  split; [done|]. split; [by apply handle_command_ok|].
  split; [reflexivity|]. split; [|by eapply command_of_id].
  intros q'. cbn. rewrite lookup_insert_eq. by intros [= <-].
Qed.

Lemma C3_witness :
  ∃ i q w',
    command_queues (example_running None []) !! 2%positive = Some q
    ∧ DBus.handle (example_self false)
        (DBus.ExportKeys "@alice:example.org" "/tmp/k.txt" "pw")
        (example_running None [])
      = Ok (DBus.id i) w'
    ∧ command_queues w'
      = <[2%positive :=
            Queue.put (ExportKeysMessage i "@alice:example.org" "/tmp/k.txt" "pw") q]>
          (command_queues (example_running None []))
    ∧ (∀ q', command_queues w' !! 2%positive = Some q' →
             Queue.items q'
             = Queue.items q
               ++ [ExportKeysMessage i "@alice:example.org" "/tmp/k.txt" "pw"])
    ∧ cmd_message_id (ExportKeysMessage i "@alice:example.org" "/tmp/k.txt" "pw")
      = i.
Proof.
  apply (C3_command_enqueues_one_message (example_self false)
           (DBus.ExportKeys "@alice:example.org" "/tmp/k.txt" "pw")
           (λ i, ExportKeysMessage i "@alice:example.org" "/tmp/k.txt" "pw")
           (example_running None [])).
  - repeat split; by eexists.
  - reflexivity.
Defined.

(** C6: [List] and [ListUserDevices] answer an unknown account or an
    unknown user with the empty list, without raising, and the three
    query methods leave the world, and so the outbound queue, as it
    was. *)
Theorem C6_queries_tolerate_unknown_keys self cache w :
  Devices.device_list (GlibT.device_if self) = Some cache →
  (∀ pan_user,
     dict_get pan_user cache = None →
     Devices.List (GlibT.device_if self) pan_user w = Ok [] w)
  ∧ (∀ pan_user user_id,
       dict_get pan_user cache = None
       ∨ (∃ device_store, dict_get pan_user cache = Some device_store
                          ∧ dict_get user_id device_store = None) →
       Devices.ListUserDevices (GlibT.device_if self) pan_user user_id w = Ok [] w)
  ∧ (∀ c, DBus.is_query c = true → ∃ r, DBus.handle self c w = Ok r w).
Proof.
  intros Hcache. split; [|split].
  - intros pan_user Hnone. unfold Devices.List. rewrite Hcache.
    unfold_monad. by rewrite Hnone.
  - intros pan_user user_id Hnone. unfold Devices.ListUserDevices.
    rewrite Hcache. unfold_monad.
    destruct Hnone as [Hnone|(device_store & Hsome & Hnone)].
    + by rewrite Hnone.
    + rewrite Hsome. destruct (falsy (Some device_store)); [done|].
      cbn. by rewrite Hnone.
  - intros c Hc. by eapply handle_query_ok.
Qed.

Lemma C6_witness :
  (∀ pan_user,
     dict_get pan_user (db_load_all_devices example_database) = None →
     Devices.List (GlibT.device_if (example_self false)) pan_user
       (example_running None [])
     = Ok [] (example_running None []))
  ∧ Devices.List (GlibT.device_if (example_self false)) "@carol:example.org"
      (example_running None [])
    = Ok [] (example_running None [])
  ∧ Devices.ListUserDevices (GlibT.device_if (example_self false))
      "@alice:example.org" "@carol:example.org" (example_running None [])
    = Ok [] (example_running None []).
Proof.
  destruct (C6_queries_tolerate_unknown_keys (example_self false)
              (db_load_all_devices example_database) (example_running None [])
              eq_refl) as (HList & HUser & _).
  split; [exact HList|]. split.
  - apply HList. reflexivity.
  - apply HUser. right. eexists. split; reflexivity.
Defined.

(** ** Successive firings *)





(** C2: a firing that takes a [DaemonResponse] from the inbound queue
    raises exactly one signal, [Response], with the id and the account
    of the event and the mapping of ["code"] and ["message"] to its
    status code and text; when the event carries the id of a command
    that a method call put on the outbound queue, that id is the one the
    call returned. *)
Theorem C2_response_carries_event_id self q id pan_user code text rest w :
  event_queues w !! GlibT.receive_queue self = Some q →
  Queue.items q = DaemonResponse id pan_user code text :: rest →
  Queue.accounted q →
  ∃ w',
    GlibT.message_callback self w = Ok (true, self) w'
    ∧ bus_signals w'
      = bus_signals w
        ++ [Response id pan_user {[ "code" := code; "message" := text ]}]
    ∧ (∀ sent0 w0 self0 c r w1 command,
         reach sent0 w0 self0 →
         DBus.handle self0 c w0 = Ok r w1 →
         newly_put self0 w0 w1 = [command] →
         id = cmd_message_id command →
         r = DBus.id id).
Proof.
  intros Hq Hitems Hacc.
  destruct (message_callback_cons _ _ _ _ _ Hq Hitems Hacc) as (calls & Heq & _);
    [done|].
  eexists. split; [exact Heq|]. split; [done|].
  intros sent0 w0 self0 c r w1 command Hreach Hcall Hput ->.
  apply reach_invariant in Hreach.
  destruct (DBus.command_of c) as [build|] eqn:Hb.
  - destruct (handle_command_invariant _ _ _ _ _ Hreach Hb) as (q0 & Hq0 & Heq0).
    rewrite Heq0 in Hcall. injection Hcall as <- <-.
    rewrite newly_put_issued in Hput; [|done]. injection Hput as <-.
    f_equal. symmetry. by eapply command_of_id.
  - apply command_of_query in Hb.
    apply (handle_query_pure _ _ _ _ _ Hb) in Hcall as ->.
    rewrite newly_put_same in Hput; done.
Qed.

(** The scenario of the spec, with the first id: [ExportKeys] returns
    0, the worker answers with a [DaemonResponse] for id 0, and the
    firing raises [Response] with id 0. *)
Lemma C2_witness :
  ∃ w' r w1,
    GlibT.message_callback (example_self true)
      (example_running (Some ["actions"])
         [DaemonResponse 0 "@alice:example.org" "0" "ok"])
    = Ok (true, example_self true) w'
    ∧ bus_signals w'
      = [Response 0 "@alice:example.org" {[ "code" := "0"; "message" := "ok" ]}]
    ∧ DBus.handle (example_self false)
        (DBus.ExportKeys "@alice:example.org" "/tmp/k.txt" "pw")
        (example_running None []) = Ok r w1
    ∧ r = DBus.id 0.
Proof.
  destruct (C2_response_carries_event_id (example_self true)
              {| Queue.items := [DaemonResponse 0 "@alice:example.org" "0" "ok"];
                 Queue.unfinished_tasks := 1 |}
              0 "@alice:example.org" "0" "ok" []
              (example_running (Some ["actions"])
                 [DaemonResponse 0 "@alice:example.org" "0" "ok"]))
    as (w' & Htick & Hsignal & Hid).
  - reflexivity.
  - reflexivity.
  - unfold Queue.accounted. cbn. lia.
  - assert (Hcall : ∃ r w1,
      DBus.handle (example_self false)
        (DBus.ExportKeys "@alice:example.org" "/tmp/k.txt" "pw")
        (example_running None []) = Ok r w1
      ∧ newly_put (example_self false) (example_running None []) w1
        = [ExportKeysMessage 0 "@alice:example.org" "/tmp/k.txt" "pw"]).
    { eexists _, _. split; [vm_compute; reflexivity|]. by vm_compute. }
    destruct Hcall as (r & w1 & Hcall & Hput).
    exists w', r, w1. split; [exact Htick|]. split; [exact Hsignal|].
    split; [exact Hcall|].
    exact (Hid [] _ _ _ r w1 _ example_reach Hcall Hput eq_refl).
Defined.

(** C7: a firing that takes an event of none of the seven kinds raises
    no signal, calls no notification function, leaves the object, and so
    both caches, as it was, still calls [task_done], and returns
    [True]. *)
Theorem C7_unrecognized_event_ignored self q class_name rest w :
  event_queues w !! GlibT.receive_queue self = Some q →
  Queue.items q = UnrecognizedMessage class_name :: rest →
  Queue.accounted q →
  ∃ w' q',
    GlibT.message_callback self w = Ok (true, self) w'
    ∧ bus_signals w' = bus_signals w
    ∧ notify_calls w' = notify_calls w
    ∧ counters w' = counters w
    ∧ command_queues w' = command_queues w
    ∧ database w' = database w
    ∧ event_queues w' !! GlibT.receive_queue self = Some q'
    ∧ Queue.items q' = rest
    ∧ S (Queue.unfinished_tasks q') = Queue.unfinished_tasks q.
Proof.
  intros Hq Hitems Hacc.
  destruct (message_callback_cons _ _ _ _ _ Hq Hitems Hacc) as (calls & Heq & Hc);
    [done|].
  unfold rendering in Hc. cbn in Hc. subst calls.
  eexists _, _. split; [exact Heq|]. cbn. rewrite !app_nil_r.
  do 5 (split; [done|]). split; [apply lookup_insert_eq|]. split; [done|].
  unfold Queue.accounted in Hacc. rewrite Hitems in Hacc. cbn in *. lia.
Qed.

Lemma C7_witness :
  ∃ w' q',
    GlibT.message_callback (example_self true)
      (example_running (Some ["actions"]) [UnrecognizedMessage "KeepAlive"])
    = Ok (true, example_self true) w'
    ∧ bus_signals w' = []
    ∧ notify_calls w' = []
    ∧ counters w' = {[ 1%positive := IdCounter.__init__ ]}
    ∧ command_queues w'
      = {[ 2%positive := {| Queue.items := []; Queue.unfinished_tasks := 0 |} ]}
    ∧ database w' = example_database
    ∧ event_queues w' !! 1%positive = Some q'
    ∧ Queue.items q' = []
    ∧ S (Queue.unfinished_tasks q') = 1%nat.
Proof.
  refine (C7_unrecognized_event_ignored (example_self true)
            {| Queue.items := [UnrecognizedMessage "KeepAlive"];
               Queue.unfinished_tasks := 1 |}
            "KeepAlive" []
            (example_running (Some ["actions"]) [UnrecognizedMessage "KeepAlive"])
            _ _ _).
  - reflexivity.
  - reflexivity.
  - unfold Queue.accounted. cbn. lia.
Defined.

(** C10: a firing that takes a [DaemonResponse] calls no notification
    function, also when notifications are on, puts nothing on the
    outbound queue, and leaves the object, and so the users cache and
    the devices cache, as it was; the [Response] signal is the only
    signal it raises. *)
Theorem C10_response_changes_nothing_else self q id pan_user code text rest w :
  event_queues w !! GlibT.receive_queue self = Some q →
  Queue.items q = DaemonResponse id pan_user code text :: rest →
  Queue.accounted q →
  ∃ self' w',
    GlibT.message_callback self w = Ok (true, self') w'
    ∧ notify_calls w' = notify_calls w
    ∧ Control.users (GlibT.control_if self') = Control.users (GlibT.control_if self)
    ∧ Devices.device_list (GlibT.device_if self')
      = Devices.device_list (GlibT.device_if self)
    ∧ self' = self
    ∧ counters w' = counters w
    ∧ command_queues w' = command_queues w
    ∧ database w' = database w
    ∧ bus_signals w'
      = bus_signals w
        ++ [Response id pan_user {[ "code" := code; "message" := text ]}].
Proof.
  intros Hq Hitems Hacc.
  destruct (message_callback_cons _ _ _ _ _ Hq Hitems Hacc) as (calls & Heq & Hc);
    [done|].
  unfold rendering in Hc. cbn in Hc. subst calls.
  eexists _, _. split; [exact Heq|]. cbn. by rewrite !app_nil_r.
Qed.

Lemma C10_witness :
  ∃ self' w',
    GlibT.message_callback (example_self true)
      (example_running (Some ["actions"])
         [DaemonResponse 7 "@alice:example.org" "0" "ok"])
    = Ok (true, self') w'
    ∧ notify_calls w' = []
    ∧ Control.users (GlibT.control_if self')
      = Control.users (GlibT.control_if (example_self true))
    ∧ Devices.device_list (GlibT.device_if self')
      = Devices.device_list (GlibT.device_if (example_self true))
    ∧ self' = example_self true
    ∧ counters w' = {[ 1%positive := IdCounter.__init__ ]}
    ∧ command_queues w'
      = {[ 2%positive := {| Queue.items := []; Queue.unfinished_tasks := 0 |} ]}
    ∧ database w' = example_database
    ∧ bus_signals w'
      = [Response 7 "@alice:example.org" {[ "code" := "0"; "message" := "ok" ]}].
Proof.
  refine (C10_response_changes_nothing_else (example_self true)
            {| Queue.items := [DaemonResponse 7 "@alice:example.org" "0" "ok"];
               Queue.unfinished_tasks := 1 |}
            7 "@alice:example.org" "0" "ok" []
            (example_running (Some ["actions"])
               [DaemonResponse 7 "@alice:example.org" "0" "ok"]) _ _ _).
  - reflexivity.
  - reflexivity.
  - unfold Queue.accounted. cbn. lia.
Defined.

(** [update_users] writes one key per configured server and touches no
    other key: that the cache holds no other key is a property of the
    executions ([inv_users]), not of the method alone. *)
Lemma update_users_keeps_other_keys self w server_name accounts :
  server_name ∉ map ServerConfig.name (Control.server_list self) →
  Control.users self !! server_name = Some accounts →
  ∃ self',
    Control.update_users self w = Ok self' w
    ∧ Control.users self' !! server_name = Some accounts.
Proof.
  intros Hout Hlook. eexists. split; [apply update_users_ok|]. cbn.
  rewrite lookup_union, users_snapshot_lookup, decide_False by done.
  by rewrite Hlook.
Qed.

(** C5: in every execution, a firing that takes an [UpdateUsers] event
    leaves [ListServers] equal to the mapping built afresh from what
    the store holds at that moment: every server key is a configured
    server, and every sequence is the one the store holds for it, so
    nothing of the cache before the firing survives. *)
Theorem C5_update_users_replaces_cache sent w self q rest :
  reach sent w self →
  event_queues w !! GlibT.receive_queue self = Some q →
  Queue.items q = UpdateUsersMessage :: rest →
  ∃ self' w',
    GlibT.message_callback self w = Ok (true, self') w'
    ∧ Control.ListServers (GlibT.control_if self') w'
      = Ok (users_snapshot (database w) (GlibT.server_list self)) w'
    ∧ ∀ server_name accounts,
        Control.users (GlibT.control_if self') !! server_name = Some accounts →
        server_name ∈ map ServerConfig.name (GlibT.server_list self)
        ∧ accounts = db_load_users (database w) server_name.
Proof.
  intros Hreach Hq Hitems. apply reach_invariant in Hreach as Hinv.
  destruct (inv_inbound _ _ _ Hinv) as (q0 & Hq0 & Hacc).
  rewrite Hq in Hq0. injection Hq0 as <-.
  destruct (message_callback_cons _ _ _ _ _ Hq Hitems Hacc) as (calls & Heq & _);
    [done|].
  destruct (inv_shared _ _ _ Hinv) as (_ & _ & _ & Hservers).
  assert (Husers :
    users_snapshot (database w) (Control.server_list (GlibT.control_if self))
      ∪ Control.users (GlibT.control_if self)
    = users_snapshot (database w) (GlibT.server_list self)).
  { rewrite Hservers. apply map_eq. intros k.
    rewrite lookup_union, users_snapshot_lookup.
    destruct (decide (k ∈ map ServerConfig.name (GlibT.server_list self)))
      as [Hk|Hk].
    - by destruct (Control.users (GlibT.control_if self) !! k).
    - destruct (Control.users (GlibT.control_if self) !! k) eqn:Hlook; [|done].
      exfalso. apply Hk, (inv_users _ _ _ Hinv). by eexists. }
  eexists _, _. split; [exact Heq|]. cbn. rewrite Husers. split; [done|].
  intros server_name accounts. rewrite users_snapshot_lookup.
  destruct (decide (server_name ∈ map ServerConfig.name (GlibT.server_list self)));
    [|done].
  by intros [= <-].
Qed.

Lemma C5_witness :
  let w :=
    set_event_queues
      (insert 1%positive
         (Queue.put UpdateUsersMessage
            {| Queue.items := []; Queue.unfinished_tasks := 0 |}))
      (set_database example_database_later (example_running None [])) in
  Control.users (GlibT.control_if (example_self false))
    = {[ "example" := [("@alice:example.org", "ALICEDEVICE")] ]}
  ∧ ∃ self' w',
      GlibT.message_callback (example_self false) w = Ok (true, self') w'
      ∧ Control.ListServers (GlibT.control_if self') w'
        = Ok {[ "example" := [("@bob:example.org", "BOBDEVICE")] ]} w'
      ∧ ∀ server_name accounts,
          Control.users (GlibT.control_if self') !! server_name = Some accounts →
          server_name ∈ ["example"]
          ∧ accounts = db_load_users example_database_later server_name.
Proof.
  intros w. split; [reflexivity|].
  refine (C5_update_users_replaces_cache [] w (example_self false)
            {| Queue.items := [UpdateUsersMessage]; Queue.unfinished_tasks := 1 |}
            [] _ _ _).
  - apply (reach_worker_put [] _ (example_self false) UpdateUsersMessage
             {| Queue.items := []; Queue.unfinished_tasks := 0 |}).
    + apply reach_store. apply example_reach.
    + reflexivity.
  - reflexivity.
  - reflexivity.
Defined.




(** ** Notifications *)

Lemma error_records_add_debug message w :
  error_records (add_log (log_debug_received message) w) = error_records w.
Proof.
  unfold error_records. cbn. rewrite List.filter_app. cbn. apply app_nil_r.
Qed.

Lemma caps_queries_run self w self' w' :
  GlibT.run self w = Ok self' w' → caps_queries w' = caps_queries w.
Proof.
  destruct (PanConfig.notifications (GlibT.config self)) eqn:Hcfg.
  - destruct (notify_server w) as [caps|] eqn:Hs.
    + rewrite (run_server _ caps) by done. intros [= <- <-].
      unfold caps_queries. cbn. rewrite List.filter_app. cbn.
      by rewrite app_nil_r.
    + rewrite run_no_server by done. by intros [= <- <-].
  - rewrite run_disabled by done. by intros [= <- <-].
Qed.

Lemma caps_queries_fired self l q message rest calls w :
  rendering self message calls →
  caps_queries (fired l q message rest calls w)
  = (caps_queries w
     + (if actionable message && GlibT.notifications self then 1 else 0))%nat.
Proof.
  unfold rendering, caps_queries, fired. cbn. rewrite List.filter_app, length_app.
  intros Hr. f_equal.
  destruct message; cbn in *; try (by subst calls).
  all: destruct (GlibT.notifications self); [|by subst calls].
  all: by destruct Hr as (n & -> & _).
Qed.

Lemma refreshed_config db message self :
  GlibT.config (refreshed db message self) = GlibT.config self.
Proof. by destruct message. Qed.

Lemma degradation_frame w self w' self' :
  degradation w self →
  notify_server w' = notify_server w →
  notify_calls w' = notify_calls w →
  error_records w' = error_records w →
  GlibT.config self' = GlibT.config self →
  degradation w' self'.
Proof.
  intros [H1 H2] Hs Hc He Hcfg. unfold degradation.
  by rewrite Hs, Hc, He, Hcfg.
Qed.

Lemma reach_degradation sent w self : reach sent w self → degradation w self.
Proof.
  induction 1 as
    [w0 rq sq dd sl cfg self1 w1 self2 w2 Hstart Hinit Hrun
    |sent w self c r w' Hreach IH Hcall
    |sent w self continue self' w' Hreach IH Htick
    |sent w self n a w' Hreach IH Hshown Ha Hinvoke
    |sent w self message q Hreach IH Hq
    |sent w self q message q' Hreach IH Hq Hget
    |sent w self db Hreach IH].
  - destruct Hstart as (_ & _ & _ & Hcalls & Hlog).
    rewrite post_init_ok in Hinit. injection Hinit as <- <-.
    unfold degradation, error_records.
    destruct (PanConfig.notifications cfg) eqn:Hcfg.
    + destruct (notify_server w0) as [caps|] eqn:Hs.
      * erewrite run_server in Hrun; [|done|exact Hs]. injection Hrun as <- <-.
        cbn. by rewrite Hs, Hcfg, Hlog.
      * erewrite run_no_server in Hrun; [|done|exact Hs]. injection Hrun as <- <-.
        cbn. by rewrite Hs, Hcfg, Hlog, Hcalls.
    + rewrite run_disabled in Hrun; [|done]. injection Hrun as <- <-.
      cbn. by rewrite Hcfg, Hlog, Hcalls.
  - apply reach_invariant in Hreach as Hinv.
    destruct (DBus.command_of c) as [build|] eqn:Hb.
    + destruct (handle_command_invariant _ _ _ _ _ Hinv Hb) as (q & Hq & Heq).
      rewrite Heq in Hcall. injection Hcall as <- <-.
      by eapply degradation_frame.
    + apply command_of_query in Hb.
      by apply (handle_query_pure _ _ _ _ _ Hb) in Hcall as ->.
  - apply reach_invariant in Hreach as Hinv.
    destruct (inv_inbound _ _ _ Hinv) as (q & Hq & Hacc).
    destruct (Queue.items q) as [|message rest] eqn:Hitems.
    + rewrite (message_callback_empty _ _ _ Hq Hitems) in Htick.
      by injection Htick as <- <- <-.
    + destruct (message_callback_cons _ _ _ _ _ Hq Hitems Hacc
                  (λ _, inv_notifications _ _ _ Hinv)) as (calls & Heq & Hcalls).
      rewrite Heq in Htick. injection Htick as <- <- <-.
      destruct IH as [IH1 IH2]. split.
      * cbn. intros Hs. rewrite (IH1 Hs). cbn.
        unfold rendering in Hcalls.
        destruct (GlibT.notifications self) eqn:Hflag.
        { destruct (inv_notifications _ _ _ Hinv Hflag) as [caps Hcaps].
          congruence. }
        by rewrite andb_false_r in Hcalls.
      * rewrite refreshed_config. unfold fired.
        change (error_records
                  (set_event_queues ?f (add_log ?r (with_outputs ?s ?c w))))
          with (error_records (add_log r w)).
        by rewrite error_records_add_debug.
  - apply reach_invariant in Hreach as Hinv.
    assert (Hb : built_action a) by (by eapply (inv_actions _ _ _ Hinv)).
    destruct (invoke_invariant _ _ _ _ Hinv Hb) as (q & build & Hq & _ & Hid & Heq).
    rewrite Heq in Hinvoke. injection Hinvoke as <-.
    by eapply degradation_frame.
  - by eapply degradation_frame.
  - by eapply degradation_frame.
  - by eapply degradation_frame.
Qed.

(** C8, as the code has it: [run] never asks the notification server
    for its capabilities; each notification function that offers actions
    asks for them once, every time it renders.  When [notify2.init]
    fails for want of a server, [run] logs one error record and returns
    with notifications off; from then on, in every state of the
    execution, notifications are off, no call has reached notify2, that
    record is the only error logged, a firing returns [True] without
    raising and raises the signal of the event it took, and every
    method call returns. *)
Theorem C8_notifications_degrade_gracefully :
  (∀ self w self' w',
     GlibT.run self w = Ok self' w' → caps_queries w' = caps_queries w)
  ∧ (∀ self q message rest w,
       event_queues w !! GlibT.receive_queue self = Some q →
       Queue.items q = message :: rest →
       Queue.accounted q →
       notifications_ok w self →
       ∃ self' w',
         GlibT.message_callback self w = Ok (true, self') w'
         ∧ caps_queries w'
           = (caps_queries w
              + (if actionable message && GlibT.notifications self
                 then 1 else 0))%nat)
  ∧ (∀ self w,
       PanConfig.notifications (GlibT.config self) = true →
       notify_server w = None →
       ∃ self',
         GlibT.run self w = Ok self' (add_log (log_error no_server_text) w)
         ∧ GlibT.notifications self' = false)
  ∧ (∀ sent w self,
       reach sent w self →
       notify_server w = None →
       GlibT.notifications self = false
       ∧ notify_calls w = []
       ∧ error_records w
         = (if PanConfig.notifications (GlibT.config self)
            then [log_error no_server_text] else [])
       ∧ (∃ self' w',
            GlibT.message_callback self w = Ok (true, self') w'
            ∧ notify_calls w' = []
            ∧ bus_signals w'
              = bus_signals w ++ flat_map signal_of (take 1 (inbound self w)))
       ∧ (∀ c, ∃ r w', DBus.handle self c w = Ok r w')).
Proof.
  split; [exact caps_queries_run|]. split.
  { intros self q message rest w Hq Hitems Hacc Hn.
    destruct (message_callback_cons _ _ _ _ _ Hq Hitems Hacc (λ _, Hn))
      as (calls & Heq & Hcalls).
    eexists _, _. split; [exact Heq|]. by apply caps_queries_fired. }
  split.
  { intros self w Hcfg Hs. eexists. split; [by apply run_no_server|done]. }
  intros sent w self Hreach Hs.
  apply reach_invariant in Hreach as Hinv.
  destruct (reach_degradation _ _ _ Hreach) as [Hquiet Herr].
  assert (Hflag : GlibT.notifications self = false).
  { destruct (GlibT.notifications self) eqn:Hflag; [|done].
    destruct (inv_notifications _ _ _ Hinv Hflag) as [caps Hcaps]. congruence. }
  split; [done|]. split; [by apply Hquiet|]. split.
  { rewrite Herr, Hs. by destruct (PanConfig.notifications _). }
  split.
  - destruct (inv_inbound _ _ _ Hinv) as (q & Hq & Hacc).
    unfold inbound. rewrite Hq. cbn.
    destruct (Queue.items q) as [|message rest] eqn:Hitems.
    + exists self, w. rewrite (message_callback_empty _ _ _ Hq Hitems).
      cbn. rewrite app_nil_r. split; [done|]. split; [by apply Hquiet|done].
    + destruct (message_callback_cons _ _ _ _ _ Hq Hitems Hacc
                  (λ _, inv_notifications _ _ _ Hinv)) as (calls & Heq & Hcalls).
      eexists _, _. split; [exact Heq|]. cbn. rewrite app_nil_r.
      split; [|done]. rewrite (Hquiet Hs). cbn.
      unfold rendering in Hcalls. rewrite Hflag in Hcalls.
      by rewrite andb_false_r in Hcalls.
  - intros c. destruct (DBus.command_of c) as [build|] eqn:Hb.
    + destruct (handle_command_invariant _ _ _ _ _ Hinv Hb) as (q & Hq & Heq).
      by eexists _, _.
    + apply command_of_query in Hb.
      destruct (inv_devices _ _ _ Hinv) as [cache Hcache].
      destruct (handle_query_ok self cache c w Hcache Hb) as [r Hr].
      by exists r, w.
Qed.

(** The degraded start-up of the example: notifications are asked for
    and there is no notification server. *)
Lemma C8_witness :
  ∃ sent w self,
    reach sent w self
    ∧ notify_server w = None
    ∧ PanConfig.notifications (GlibT.config self) = true
    ∧ GlibT.notifications self = false
    ∧ notify_calls w = []
    ∧ error_records w = [log_error no_server_text]
    ∧ (∃ self' w',
         GlibT.message_callback self w = Ok (true, self') w'
         ∧ notify_calls w' = []
         ∧ bus_signals w'
           = bus_signals w ++ flat_map signal_of (take 1 (inbound self w)))
    ∧ (∀ c, ∃ r w', DBus.handle self c w = Ok r w').
Proof.
  assert (H : ∃ sent w self,
    reach sent w self
    ∧ notify_server w = None
    ∧ PanConfig.notifications (GlibT.config self) = true).
  { eexists _, _, _. split.
    - eapply reach_timeout.
      + eapply (reach_worker_put _ _ _
                  (UnverifiedDevicesSignal "alice" "!r:example" "Example room")).
        * eapply (reach_start (example_world None) 1%positive 2%positive "/tmp"
                    example_servers (example_config true)).
          -- apply startup_example.
          -- vm_compute. reflexivity.
          -- vm_compute. reflexivity.
        * vm_compute. reflexivity.
      + vm_compute. reflexivity.
    - by vm_compute. }
  destruct H as (sent & w & self & Hreach & Hs & Hcfg).
  exists sent, w, self. do 3 (split; [done|]).
  destruct (proj2 (proj2 (proj2 C8_notifications_degrade_gracefully))
              sent w self Hreach Hs) as (H1 & H2 & H3 & H4 & H5).
  rewrite Hcfg in H3. done.
Defined.

(** C8 as stated fails: with a notification server that supports
    actions and notifications asked for, start-up makes no capability
    query at all, and the two firings that render the notifications of
    two [UnverifiedDevices] events make one each. *)
Lemma C8_counterexample :
  ∃ self1 w1 self2 w2 self3 w3,
    GlibT.__attrs_post_init__ 1%positive 2%positive "/tmp" example_servers
      (example_config true) (example_world (Some ["actions"])) = Ok self1 w1
    ∧ GlibT.run self1 w1 = Ok self2 w2
    ∧ GlibT.notifications self2 = true
    ∧ caps_queries w2 = 0%nat
    ∧ GlibT.timeout_loop 2 self2
        (set_event_queues
           (insert 1%positive
              {| Queue.items :=
                   [UnverifiedDevicesSignal "alice" "!r:example" "Example room";
                    UnverifiedDevicesSignal "alice" "!s:example" "Other room"];
                 Queue.unfinished_tasks := 2 |}) w2)
      = Ok self3 w3
    ∧ caps_queries w3 = 2%nat
    ∧ ¬ queried_once_at_startup w2 w3.
Proof.
  eexists _, _, _, _, _, _.
  split; [vm_compute; reflexivity|]. split; [vm_compute; reflexivity|].
  split; [reflexivity|]. split; [reflexivity|].
  split; [vm_compute; reflexivity|]. split; [reflexivity|].
  intros [H _]. vm_compute in H. discriminate H.
Qed.

(** * Further properties of the code *)

(** ** The devices cache *)

Lemma List_ok self cache pan_user w :
  Devices.device_list self = Some cache →
  Devices.List self pan_user w = Ok (devices_of cache pan_user) w.
Proof.
  intros Hcache. unfold Devices.List, devices_of. rewrite Hcache. unfold_monad.
  destruct (dict_get pan_user cache) as [[|entry device_store]|]; done.
Qed.

Lemma dict_get_NoDup {V : Type} (d : dict V) k v :
  NoDup (map fst d) → (k, v) ∈ d → dict_get k d = Some v.
Proof.
  induction d as [|[k' v'] d IH]; intros Hnodup Hin.
  - by apply elem_of_nil in Hin.
  - cbn in Hnodup. apply NoDup_cons in Hnodup as [Hfresh Hnodup]. cbn.
    apply elem_of_cons in Hin as [[= -> ->]|Hin].
    + by rewrite decide_True.
    + rewrite decide_False; [by apply IH|].
      intros ->. apply Hfresh. by apply (list_elem_of_fmap_2 fst _ (k', v)).
Qed.

(** A firing that takes an [UpdateDevices] event replaces the devices
    cache by what the store holds at that moment, whatever the cache
    held before: afterwards [List] answers every account from the new
    contents.  The users cache is not touched, and no signal is raised
    and no notification shown, also when notifications are on. *)
Theorem update_devices_event_replaces_cache self q rest w :
  event_queues w !! GlibT.receive_queue self = Some q →
  Queue.items q = UpdateDevicesMessage :: rest →
  Queue.accounted q →
  ∃ self' w',
    GlibT.message_callback self w = Ok (true, self') w'
    ∧ Devices.device_list (GlibT.device_if self')
      = Some (db_load_all_devices (database w))
    ∧ (∀ pan_user,
         Devices.List (GlibT.device_if self') pan_user w'
         = Ok (devices_of (db_load_all_devices (database w)) pan_user) w')
    ∧ GlibT.control_if self' = GlibT.control_if self
    ∧ bus_signals w' = bus_signals w
    ∧ notify_calls w' = notify_calls w.
Proof.
  intros Hq Hitems Hacc.
  destruct (message_callback_cons _ _ _ _ _ Hq Hitems Hacc) as (calls & Heq & Hc);
    [done|].
  unfold rendering in Hc. cbn in Hc. subst calls.
  eexists _, _. split; [exact Heq|]. split; [done|].
  split; [intros pan_user; by apply List_ok|].
  cbn. by rewrite !app_nil_r.
Qed.

Lemma update_devices_event_witness :
  ∃ self' w',
    GlibT.message_callback (example_self true)
      (set_database example_no_devices
         (example_running (Some ["actions"]) [UpdateDevicesMessage]))
    = Ok (true, self') w'
    ∧ Devices.device_list (GlibT.device_if (example_self true))
      = Some (db_load_all_devices example_database)
    ∧ Devices.device_list (GlibT.device_if self') = Some []
    ∧ (∀ pan_user,
         Devices.List (GlibT.device_if self') pan_user w' = Ok [] w')
    ∧ GlibT.control_if self' = GlibT.control_if (example_self true)
    ∧ bus_signals w' = []
    ∧ notify_calls w' = [].
Proof.
  destruct (update_devices_event_replaces_cache (example_self true)
              {| Queue.items := [UpdateDevicesMessage]; Queue.unfinished_tasks := 1 |}
              []
              (set_database example_no_devices
                 (example_running (Some ["actions"]) [UpdateDevicesMessage])))
    as (self' & w' & H1 & H2 & H3 & H4 & H5 & H6).
  - reflexivity.
  - reflexivity.
  - unfold Queue.accounted. cbn. lia.
  - exists self', w'. split; [exact H1|]. split; [reflexivity|].
    split; [exact H2|]. split; [exact H3|]. split; [exact H4|].
    split; [exact H5|exact H6].
Defined.

(** [List] of an account is the concatenation, user by user in the
    order of the cache, of what [ListUserDevices] answers for the users
    that the cache holds for the account. *)
Theorem List_concatenates_ListUserDevices self cache pan_user device_store w :
  Devices.device_list self = Some cache →
  dict_get pan_user cache = Some device_store →
  NoDup (map fst device_store) →
  ∃ per_user,
    Forall2
      (λ user_id devices,
         Devices.ListUserDevices self pan_user user_id w = Ok devices w)
      (map fst device_store) per_user
    ∧ Devices.List self pan_user w = Ok (concat per_user) w.
Proof.
  intros Hcache Hstore Hnodup.
  exists (map (λ entry, dict_values (snd entry)) device_store). split.
  - apply Forall2_fmap, Forall_Forall2_diag, Forall_forall.
    intros [user_id devices] Hin. cbn.
    unfold Devices.ListUserDevices. rewrite Hcache. unfold_monad.
    rewrite Hstore.
    assert (Hfull : falsy (Some device_store) = false).
    { destruct device_store; [by apply elem_of_nil in Hin|done]. }
    rewrite Hfull. cbn [default from_option id].
    rewrite (dict_get_NoDup device_store user_id devices Hnodup Hin).
    by destruct devices.
  - rewrite (List_ok self cache pan_user w Hcache). unfold devices_of.
    rewrite Hstore. cbn [default]. unfold dict_values at 2.
    by rewrite map_map.
Qed.

Lemma List_concatenates_witness :
  ∃ per_user,
    Forall2
      (λ user_id devices,
         Devices.ListUserDevices (GlibT.device_if (example_self false))
           "@alice:example.org" user_id (example_running None [])
         = Ok devices (example_running None []))
      ["@bob:example.org"] per_user
    ∧ Devices.List (GlibT.device_if (example_self false)) "@alice:example.org"
        (example_running None [])
      = Ok (concat per_user) (example_running None []).
Proof.
  refine (List_concatenates_ListUserDevices
            (GlibT.device_if (example_self false))
            (db_load_all_devices example_database) "@alice:example.org"
            [("@bob:example.org",
              [("BOBDEVICE", {[ "user_id" := "@bob:example.org";
                                "device_id" := "BOBDEVICE" ]})])]
            (example_running None []) eq_refl eq_refl _).
  cbn. apply NoDup_cons. split; [apply not_elem_of_nil|apply NoDup_nil_2].
Defined.

(** ** What a firing raises and what it leaves alone *)



(** A firing never puts a command on an outbound queue, never reads
    the id counter and never writes to the store, whatever event it
    takes: commands come from method calls and from the actions of
    notifications only.  It writes exactly one debug record to the
    log. *)
Theorem firing_leaves_commands_alone self q message rest w :
  event_queues w !! GlibT.receive_queue self = Some q →
  Queue.items q = message :: rest →
  Queue.accounted q →
  notifications_ok w self →
  ∃ self' w',
    GlibT.message_callback self w = Ok (true, self') w'
    ∧ command_queues w' = command_queues w
    ∧ counters w' = counters w
    ∧ database w' = database w
    ∧ log w' = log w ++ [log_debug_received message]
    ∧ GlibT.notifications self' = GlibT.notifications self
    ∧ GlibT.send_queue self' = GlibT.send_queue self
    ∧ GlibT.receive_queue self' = GlibT.receive_queue self.
Proof.
  intros Hq Hitems Hacc Hn.
  destruct (message_callback_cons _ _ _ _ _ Hq Hitems Hacc (λ _, Hn))
    as (calls & Heq & _).
  eexists _, _. split; [exact Heq|]. do 4 (split; [done|]).
  split; [apply refreshed_notifications|].
  split; [by destruct message|apply refreshed_receive_queue].
Qed.

Lemma firing_leaves_commands_witness :
  ∃ self' w',
    GlibT.message_callback (example_self true)
      (example_running (Some ["actions"])
         [UnverifiedDevicesSignal "alice" "!r:example" "Example room"])
    = Ok (true, self') w'
    ∧ command_queues w'
      = {[ 2%positive := {| Queue.items := []; Queue.unfinished_tasks := 0 |} ]}
    ∧ counters w' = {[ 1%positive := IdCounter.__init__ ]}
    ∧ database w' = example_database
    ∧ log w'
      = [log_debug_received
           (UnverifiedDevicesSignal "alice" "!r:example" "Example room")]
    ∧ GlibT.notifications self' = true
    ∧ GlibT.send_queue self' = 2%positive
    ∧ GlibT.receive_queue self' = 1%positive.
Proof.
  refine (firing_leaves_commands_alone (example_self true)
            {| Queue.items :=
                 [UnverifiedDevicesSignal "alice" "!r:example" "Example room"];
               Queue.unfinished_tasks := 1 |}
            (UnverifiedDevicesSignal "alice" "!r:example" "Example room") []
            (example_running (Some ["actions"])
               [UnverifiedDevicesSignal "alice" "!r:example" "Example room"])
            eq_refl eq_refl _ _).
  - unfold Queue.accounted. cbn. lia.
  - intros _. by eexists.
Defined.

(** ** What a command method leaves alone *)

(** A command method changes the counter it reads and the queue it
    puts on, and nothing else: it raises no signal, shows no
    notification, logs nothing, leaves the inbound queue and the store
    as they were, and touches no other counter and no other queue. *)
Theorem command_changes_counter_and_queue_only self c build w :
  surfaces_allocated w self →
  DBus.command_of c = Some build →
  ∃ i w',
    DBus.handle self c w = Ok (DBus.id i) w'
    ∧ bus_signals w' = bus_signals w
    ∧ notify_calls w' = notify_calls w
    ∧ log w' = log w
    ∧ event_queues w' = event_queues w
    ∧ database w' = database w
    ∧ (∀ l, l ≠ DBus.counter_of self c → counters w' !! l = counters w !! l)
    ∧ (∀ l, l ≠ DBus.queue_of self c →
            command_queues w' !! l = command_queues w !! l)
    ∧ counters w' !! DBus.counter_of self c
      = Some {| IdCounter._message_id := i + 1 |}.
Proof.
  intros (Hc1 & Hc2 & Hq1 & Hq2) Hb.
  assert (Hc : is_Some (counters w !! DBus.counter_of self c))
    by (unfold DBus.counter_of; by destruct (DBus.on_control c)).
  assert (Hq : is_Some (command_queues w !! DBus.queue_of self c))
    by (unfold DBus.queue_of; by destruct (DBus.on_control c)).
  destruct Hc as [cv Hc], Hq as [q Hq].
  eexists _, _. split; [by apply handle_command_ok|]. cbn.
  do 5 (split; [done|]).
  split; [intros l Hl; by rewrite lookup_insert_ne|].
  split; [intros l Hl; by rewrite lookup_insert_ne|].
  by rewrite lookup_insert_eq.
Qed.

Lemma command_changes_witness :
  ∃ i w',
    DBus.handle (example_self false)
      (DBus.Blacklist "@alice:example.org" "@bob:example.org" "BOBDEVICE")
      (example_running None [UpdateUsersMessage])
    = Ok (DBus.id i) w'
    ∧ bus_signals w' = []
    ∧ notify_calls w' = []
    ∧ log w' = []
    ∧ event_queues w'
      = {[ 1%positive := {| Queue.items := [UpdateUsersMessage];
                            Queue.unfinished_tasks := 1 |} ]}
    ∧ database w' = example_database
    ∧ (∀ l, l ≠ 1%positive →
            counters w' !! l
            = counters (example_running None [UpdateUsersMessage]) !! l)
    ∧ (∀ l, l ≠ 2%positive →
            command_queues w' !! l
            = command_queues (example_running None [UpdateUsersMessage]) !! l)
    ∧ counters w' !! 1%positive = Some {| IdCounter._message_id := i + 1 |}.
Proof.
  refine (command_changes_counter_and_queue_only (example_self false)
            (DBus.Blacklist "@alice:example.org" "@bob:example.org" "BOBDEVICE")
            (λ i, DeviceBlacklistMessage i "@alice:example.org"
                    "@bob:example.org" "BOBDEVICE")
            (example_running None [UpdateUsersMessage]) _ eq_refl).
  repeat split; by eexists.
Defined.

(** ** More firings than events *)




(** ** A task count that does not cover the queue *)

(** When the task count of the inbound queue is already zero while an
    event is queued (some other consumer has called [task_done] too
    often), a firing still takes the event and handles it, and then
    raises [ValueError] from [task_done] instead of returning [True]:
    the signal of the event has been raised and the event is gone from
    the queue. *)
Theorem firing_raises_on_exhausted_task_count self q message rest w :
  event_queues w !! GlibT.receive_queue self = Some q →
  Queue.items q = message :: rest →
  Queue.unfinished_tasks q = 0%nat →
  notifications_ok w self →
  ∃ w',
    GlibT.message_callback self w = Raise ValueError w'
    ∧ bus_signals w' = bus_signals w ++ signal_of message
    ∧ event_queues w' !! GlibT.receive_queue self
      = Some {| Queue.items := rest; Queue.unfinished_tasks := 0 |}.
Proof.
  intros Hq Hitems Hu Hn. rewrite message_callback_unfold.
  set (w1 := set_event_queues
               (insert (GlibT.receive_queue self)
                  {| Queue.items := rest;
                     Queue.unfinished_tasks := Queue.unfinished_tasks q |}) w).
  set (w2 := add_log (log_debug_received message) w1).
  destruct (handle_event_ok self message w2) as (calls & Hh & _); [done|].
  eexists. split.
  - erewrite bind_ok; last first.
    { unfold try_except. erewrite bind_ok; last first.
      { unfold event_queue_get_nowait. rewrite Hq. unfold Queue.get_nowait.
        rewrite Hitems. reflexivity. }
      reflexivity. }
    cbn beta iota. erewrite bind_ok; last reflexivity.
    erewrite bind_ok; last exact Hh.
    rewrite refreshed_receive_queue.
    unfold mbind at 1, M_bind at 1, event_queue_task_done.
    cbn. rewrite lookup_insert_eq. unfold Queue.task_done. cbn. rewrite Hu.
    reflexivity.
  - cbn. split; [done|]. rewrite lookup_insert_eq. by rewrite Hu.
Qed.

Lemma firing_raises_witness :
  ∃ w',
    GlibT.message_callback (example_self false)
      (set_event_queues
         (insert 1%positive
            {| Queue.items := [SasDoneSignal "@alice:example.org"
                                 "@bob:example.org" "BOBDEVICE" "txn1"];
               Queue.unfinished_tasks := 0 |})
         (example_running None []))
    = Raise ValueError w'
    ∧ bus_signals w'
      = [VerificationDone "@alice:example.org" "@bob:example.org" "BOBDEVICE"
           "txn1"]
    ∧ event_queues w' !! 1%positive
      = Some {| Queue.items := []; Queue.unfinished_tasks := 0 |}.
Proof.
  refine (firing_raises_on_exhausted_task_count (example_self false)
            {| Queue.items := [SasDoneSignal "@alice:example.org"
                                 "@bob:example.org" "BOBDEVICE" "txn1"];
               Queue.unfinished_tasks := 0 |}
            (SasDoneSignal "@alice:example.org" "@bob:example.org" "BOBDEVICE"
               "txn1") []
            (set_event_queues
               (insert 1%positive
                  {| Queue.items := [SasDoneSignal "@alice:example.org"
                                       "@bob:example.org" "BOBDEVICE" "txn1"];
                     Queue.unfinished_tasks := 0 |})
               (example_running None []))
            eq_refl eq_refl eq_refl _).
  intros H. discriminate H.
Defined.

(** ** Construction and start-up *)


(** [run] never raises, whatever the configuration and whether or not
    there is a notification server.  With notifications switched off in
    the configuration it calls nothing of notify2, logs nothing and
    leaves the flag as it was; with notifications switched on and a
    server present it calls [notify2.init] once, logs nothing and sets
    the flag.  In every case the main loop object is set and the
    interface objects are the same. *)
Theorem run_never_raises self w :
  ∃ self' w',
    GlibT.run self w = Ok self' w'
    ∧ GlibT.loop self' = Some GLib_MainLoop
    ∧ GlibT.control_if self' = GlibT.control_if self
    ∧ GlibT.device_if self' = GlibT.device_if self
    ∧ (PanConfig.notifications (GlibT.config self) = false →
       w' = w ∧ GlibT.notifications self' = GlibT.notifications self)
    ∧ (PanConfig.notifications (GlibT.config self) = true →
       is_Some (notify_server w) →
       GlibT.notifications self' = true
       ∧ notify_calls w' = notify_calls w ++ [notify_init "pantalaimon"]
       ∧ log w' = log w)
    ∧ (GlibT.notifications self' = true →
       GlibT.notifications self = false →
       PanConfig.notifications (GlibT.config self) = true
       ∧ is_Some (notify_server w)).
Proof.
  destruct (PanConfig.notifications (GlibT.config self)) eqn:Hcfg.
  - destruct (notify_server w) as [caps|] eqn:Hs.
    + eexists _, _. split; [by eapply run_server|]. cbn.
      do 3 (split; [done|]). split; [done|]. split; [done|].
      intros _ _. split; [done|by eexists].
    + eexists _, _. split; [by apply run_no_server|]. cbn.
      do 3 (split; [done|]). split; [done|].
      split; [by intros _ [? ?]|done].
  - eexists _, _. split; [by apply run_disabled|]. cbn.
    do 3 (split; [done|]). split; [done|]. split; [done|]. congruence.
Qed.

(** ** The users cache *)

(** [update_users] reads the store once per configured server and
    changes nothing in the world; running it a second time on the same
    store gives the cache of the first run. *)
Theorem update_users_is_idempotent self w :
  ∃ self',
    Control.update_users self w = Ok self' w
    ∧ Control.update_users self' w = Ok self' w
    ∧ Control.server_list self' = Control.server_list self
    ∧ ∀ server_name,
        server_name ∈ map ServerConfig.name (Control.server_list self) →
        Control.users self' !! server_name
        = Some (db_load_users (database w) server_name).
Proof.
  eexists. split; [apply update_users_ok|]. split.
  - assert (Hm : users_snapshot (database w) (Control.server_list self)
                 ∪ (users_snapshot (database w) (Control.server_list self)
                    ∪ Control.users self)
                 = users_snapshot (database w) (Control.server_list self)
                   ∪ Control.users self).
    { apply map_eq. intros k. rewrite !lookup_union.
      by destruct (users_snapshot (database w) (Control.server_list self) !! k),
        (Control.users self !! k). }
    rewrite update_users_ok. unfold Control.set_users.
    cbn [Control.server_list Control.users Control.store Control.queue
         Control.id_counter]. by rewrite Hm.
  - split; [done|]. intros server_name Hin. cbn.
    rewrite lookup_union, users_snapshot_lookup, decide_True by done.
    by destruct (Control.users self !! server_name).
Qed.

(** In every execution [ListServers] has exactly one key per configured
    server, also for a server for which the store holds no account. *)
Theorem ListServers_keys_are_the_configured_servers sent w self :
  reach sent w self →
  ∃ servers,
    Control.ListServers (GlibT.control_if self) w = Ok servers w
    ∧ ∀ server_name,
        is_Some (servers !! server_name)
        ↔ server_name ∈ map ServerConfig.name (GlibT.server_list self).
Proof.
  intros Hreach. apply reach_invariant in Hreach.
  eexists. split; [reflexivity|]. apply (inv_users _ _ _ Hreach).
Qed.

Lemma ListServers_keys_witness :
  ∃ servers,
    Control.ListServers (GlibT.control_if (example_self false))
      (set_database example_database_later (example_running None []))
    = Ok servers (set_database example_database_later (example_running None []))
    ∧ ∀ server_name,
        is_Some (servers !! server_name) ↔ server_name ∈ ["example"].
Proof.
  refine (ListServers_keys_are_the_configured_servers [] _ (example_self false) _).
  apply reach_store, example_reach.
Defined.

(** ** Executions never raise *)



(** ** Notifications over an execution *)





(** ** What a rendered notification offers *)

Lemma message_callback_cons_calls self q message rest calls w :
  event_queues w !! GlibT.receive_queue self = Some q →
  Queue.items q = message :: rest →
  Queue.accounted q →
  handle_event self message
    (add_log (log_debug_received message)
       (set_event_queues
          (insert (GlibT.receive_queue self)
             {| Queue.items := rest;
                Queue.unfinished_tasks := Queue.unfinished_tasks q |}) w))
  = Ok (refreshed (database w) message self)
       (with_outputs (signal_of message) calls
          (add_log (log_debug_received message)
             (set_event_queues
                (insert (GlibT.receive_queue self)
                   {| Queue.items := rest;
                      Queue.unfinished_tasks := Queue.unfinished_tasks q |}) w))) →
  GlibT.message_callback self w
  = Ok (true, refreshed (database w) message self)
       (fired (GlibT.receive_queue self) q message rest calls w).
Proof.
  intros Hq Hitems Hacc Hh. rewrite message_callback_unfold.
  erewrite bind_ok; last first.
  { unfold try_except. erewrite bind_ok; last first.
    { unfold event_queue_get_nowait. rewrite Hq. unfold Queue.get_nowait.
      rewrite Hitems. reflexivity. }
    reflexivity. }
  cbn beta iota. erewrite bind_ok; last reflexivity.
  erewrite bind_ok; last exact Hh.
  rewrite refreshed_receive_queue.
  unfold Queue.accounted in Hacc. rewrite Hitems in Hacc. cbn in Hacc.
  destruct (Queue.unfinished_tasks q) as [|n] eqn:Hu; [lia|].
  erewrite bind_ok; last first.
  { unfold event_queue_task_done. cbn. rewrite lookup_insert_eq.
    unfold Queue.task_done. cbn. reflexivity. }
  unfold mret, M_ret, fired. rewrite Hu. f_equal.
  destruct w. unfold set_event_queues, with_outputs, add_log. cbn.
  by rewrite insert_insert_eq.
Qed.

Lemma handle_event_renders self message caps w :
  renders message = true →
  GlibT.notifications self = true →
  notify_server w = Some caps →
  ∃ n,
    handle_event self message w
    = Ok (refreshed (database w) message self)
         (with_outputs (signal_of message)
            ((if actionable message then [notify_get_server_caps] else [])
             ++ [notify_show n]) w)
    ∧ category n = "im"
    ∧ map action_key (actions n)
      = (if bool_decide ("actions" ∈ caps) then action_keys message else [])
    ∧ Forall (λ a, action_user_data a = message) (actions n).
Proof.
  intros Hr Hflag Hcaps.
  destruct message; try discriminate Hr;
    cbn [handle_event signal_of refreshed actionable action_keys].
  all: rewrite Hflag.
  all: destruct w; cbn in Hcaps; subst.
  all: unfold GlibT.unverified_notification, GlibT.sas_invite_notification,
         GlibT.sas_show_notification, GlibT.sas_done_notification,
         notify2.get_server_caps, notify2.show, emit.
  all: unfold_monad; cbn.
  all: eexists; split;
         [unfold with_outputs, add_notify_call, add_signal; cbn;
          rewrite <- ?app_assoc; reflexivity|].
  all: split; [by try case_bool_decide|].
  all: try case_bool_decide; cbn; split; try done.
  all: repeat constructor.
Qed.

(** With notifications on, a firing that takes one of the four daemon
    events shows exactly one notification, of category ["im"].  For the
    three kinds that offer actions it first asks the server for its
    capabilities, and the notification carries the two actions of its
    kind, in the order in which they are added and each with the event
    as user data, exactly when the server reports ["actions"]; otherwise
    it is shown without any action.  The notification of [SasDone] is
    shown without asking and never carries an action. *)
Theorem notification_offers_actions_iff_supported self q message rest caps w :
  event_queues w !! GlibT.receive_queue self = Some q →
  Queue.items q = message :: rest →
  Queue.accounted q →
  renders message = true →
  GlibT.notifications self = true →
  notify_server w = Some caps →
  ∃ n w',
    GlibT.message_callback self w = Ok (true, self) w'
    ∧ notify_calls w'
      = notify_calls w
        ++ (if actionable message then [notify_get_server_caps] else [])
        ++ [notify_show n]
    ∧ category n = "im"
    ∧ map action_key (actions n)
      = (if bool_decide ("actions" ∈ caps) then action_keys message else [])
    ∧ Forall (λ a, action_user_data a = message) (actions n).
Proof.
  intros Hq Hitems Hacc Hr Hflag Hcaps.
  edestruct (handle_event_renders self message caps) as (n & Hh & Hn); [done..| |].
  2: { exists n. eexists. split.
       - rewrite (message_callback_cons_calls _ _ _ _ _ _ Hq Hitems Hacc Hh).
         by destruct message.
       - split; [done|exact Hn]. }
  done.
Qed.

Lemma notification_offers_actions_witness :
  ∃ n w',
    GlibT.message_callback (example_self true)
      (example_running (Some ["body"; "icon-static"])
         [ShowSasSignal "@alice:example.org" "@bob:example.org" "BOBDEVICE" "txn1"
            [("D", "Dog"); ("C", "Cat")]])
    = Ok (true, example_self true) w'
    ∧ notify_calls w' = [notify_get_server_caps; notify_show n]
    ∧ category n = "im"
    ∧ map action_key (actions n) = []
    ∧ Forall
        (λ a, action_user_data a
              = ShowSasSignal "@alice:example.org" "@bob:example.org" "BOBDEVICE"
                  "txn1" [("D", "Dog"); ("C", "Cat")])
        (actions n).
Proof.
  refine (notification_offers_actions_iff_supported (example_self true)
            {| Queue.items :=
                 [ShowSasSignal "@alice:example.org" "@bob:example.org"
                    "BOBDEVICE" "txn1" [("D", "Dog"); ("C", "Cat")]];
               Queue.unfinished_tasks := 1 |}
            (ShowSasSignal "@alice:example.org" "@bob:example.org" "BOBDEVICE"
               "txn1" [("D", "Dog"); ("C", "Cat")])
            [] ["body"; "icon-static"]
            (example_running (Some ["body"; "icon-static"])
               [ShowSasSignal "@alice:example.org" "@bob:example.org" "BOBDEVICE"
                  "txn1" [("D", "Dog"); ("C", "Cat")]])
            eq_refl eq_refl _ eq_refl eq_refl eq_refl).
  unfold Queue.accounted. cbn. lia.
Defined.

(** ** Picking the other actions *)











